(** * fast-api-server: heartbeat service, settings provider and start-up

    A shallow embedding of the three Python sources

      - [src/settings.py]          (module [settings_py] below),
      - [src/routes/heartbeat.py]  (module [heartbeat_py]),
      - [src/main.py]              (module [main_py]),

    together with models of the library calls they make
    ([os.getenv], [functools.lru_cache], pydantic-settings' [BaseSettings],
    [logging.config.fileConfig], FastAPI routing and Starlette's
    [CORSMiddleware]).

    Conventions.  A Python [str] is a [string]: the sequence of bytes of
    its UTF-8 encoding.  A function that reads or may change the state of
    the interpreter is a computation in the monad [M] (state of the process
    plus exceptions). *)

From stdpp Require Import base list strings gmap.
From Stdlib Require Import Ascii String NArith.

Local Open Scope string_scope.

(** ** Exceptions and the process monad *)

(** The ways this program can fail.  [ValueError field] stands for
    pydantic-settings' [SettingsError] and pydantic's [ValidationError]
    (both subclasses of Python's [ValueError]) raised for [field];
    [LoggingConfigError] stands for whatever [fileConfig] raises
    ([FileNotFoundError], [KeyError] or [RuntimeError], depending on the
    Python version, or what building a handler raises);
    [AssertionError] is raised by an [assert] of FastAPI. *)
Inductive exception :=
  | ValueError (field : string)
  | LoggingConfigError (fname : string)
  | AssertionError (message : string).

Inductive outcome (A : Type) :=
  | Returned (a : A)
  | Raised (e : exception).
Arguments Returned {A} a.
Arguments Raised {A} e.

(** [os.environ]: the variables in the iteration order of the mapping. *)
Definition environ := list (string * string).

(** A file of the working directory: unreadable, or readable with a
    content. *)
Inductive file :=
  | Unreadable
  | Readable (content : string).

(** What the program does to the outside world, in order. *)
Inductive event :=
  | EvGetenv (name : string)        (* os.getenv(name) *)
  | EvFileConfig (fname : string)   (* fileConfig(fname) opens fname *)
  | EvEnvSource                     (* BaseSettings reads os.environ *)
  | EvAppConstructed.               (* FastAPI(...) *)

(** ** The Settings value (settings.py, lines 10-17) *)

Record Settings := {
  app_name : string;
  app_version : string;
  allowed_origins : list string;
  google_cloud_project : option string;
  default_region : option string;
}.

(** The state of the Python process that the program can see or change. *)
Record process := {
  os_environ : environ;
  files : gmap string file;
  (* the single entry of the lru_cache around get_settings *)
  get_settings_cache : option Settings;
  (* set by a successful fileConfig *)
  logging_configured : bool;
  trace : list event;
}.

Definition M (A : Type) : Type := process -> outcome A * process.

Definition ret {A} (a : A) : M A := fun p => (Returned a, p).

Definition bind {A B} (c : M A) (k : A -> M B) : M B :=
  fun p =>
    match c p with
    | (Returned a, p') => k a p'
    | (Raised e, p') => (Raised e, p')
    end.

Definition raise {A} (e : exception) : M A := fun p => (Raised e, p).

Definition lift {A} (r : outcome A) : M A := fun p => (r, p).

Definition get_process : M process := fun p => (Returned p, p).

Definition emit (e : event) : M unit :=
  fun p =>
    (Returned tt,
     {| os_environ := os_environ p;
        files := files p;
        get_settings_cache := get_settings_cache p;
        logging_configured := logging_configured p;
        trace := trace p ++ [e] |}).

Declare Scope py_scope.
Delimit Scope py_scope with py.
Notation "x <- c ;; k" := (bind c (fun x => k))
  (at level 100, c at next level, right associativity) : py_scope.
Notation "c ;; k" := (bind c (fun _ => k))
  (at level 100, right associativity) : py_scope.
Local Open Scope py_scope.

(** A process that has not run any of the program yet. *)
Definition initial (env : environ) (fs : gmap string file) : process :=
  {| os_environ := env; files := fs; get_settings_cache := None;
     logging_configured := false; trace := [] |}.

(** The environment is changed from outside the modelled code
    ([os.environ[...] = ...], [del os.environ[...]]). *)
Definition set_environ (env : environ) (p : process) : process :=
  {| os_environ := env; files := files p;
     get_settings_cache := get_settings_cache p;
     logging_configured := logging_configured p; trace := trace p |}.

(** ** os *)

Module os.

(** [os.environ.get(key)]: names are compared exactly. *)
Fixpoint environ_get (env : environ) (key : string) : option string :=
  match env with
  | [] => None
  | (k, v) :: rest => if String.eqb k key then Some v else environ_get rest key
  end.

Definition getenv (key : string) : M (option string) :=
  emit (EvGetenv key) ;;
  p <- get_process ;;
  ret (environ_get (os_environ p) key).

End os.

(** ** json: decoding a list of strings *)

Module json.

Definition quote : ascii := "034"%char.
Definition backslash : ascii := "092"%char.

(** [json.decoder.WHITESPACE]: space, tab, line feed, carriage return. *)
Definition is_whitespace (c : ascii) : bool :=
  let n := N_of_ascii c in
  (N.eqb n 32 || N.eqb n 9 || N.eqb n 10 || N.eqb n 13)%bool.

Definition hex_digit (c : ascii) : option N :=
  let n := N_of_ascii c in
  if (N.leb 48 n && N.leb n 57)%bool then Some (n - 48)%N
  else if (N.leb 97 n && N.leb n 102)%bool then Some (n - 87)%N
  else if (N.leb 65 n && N.leb n 70)%bool then Some (n - 55)%N
  else None.

Definition hex4 (a b c d : ascii) : option N :=
  match hex_digit a, hex_digit b, hex_digit c, hex_digit d with
  | Some x, Some y, Some z, Some w => Some (((x * 16 + y) * 16 + z) * 16 + w)%N
  | _, _, _, _ => None
  end.

(** The one-letter escapes of [json.decoder.BACKSLASH]. *)
Definition simple_escape (c : ascii) : option ascii :=
  let n := N_of_ascii c in
  if N.eqb n 34 then Some quote
  else if N.eqb n 92 then Some backslash
  else if N.eqb n 47 then Some "/"%char
  else if N.eqb n 98 then Some "008"%char
  else if N.eqb n 102 then Some "012"%char
  else if N.eqb n 110 then Some "010"%char
  else if N.eqb n 114 then Some "013"%char
  else if N.eqb n 116 then Some "009"%char
  else None.

(** One element of a decoded string: a character copied from the text,
    or the 16-bit unit of a [\uXXXX] escape. *)
Inductive code_unit :=
  | Raw (c : ascii)
  | Escaped (n : N).

(** Where the scanner is in the text: optional whitespace, an opening
    bracket, strings separated by commas, a closing bracket, optional
    whitespace. *)
Inductive mode :=
  | BeforeArray              (* nothing but whitespace read so far *)
  | FirstItem                (* after the opening bracket *)
  | NextItem                 (* after a comma *)
  | InString                 (* inside a string *)
  | AfterItem                (* after the closing quote of a string *)
  | AfterArray.              (* after the closing bracket *)

(** The scanner reads the text once.  [cur] holds the units of the
    string being read and [done] the finished strings, both most recent
    first.  Any text that is not a JSON array of JSON strings is
    refused: [json.loads] raises on it, or yields a value that is not a
    list of [str]. *)
Fixpoint scan (m : mode) (cur : list code_unit) (done : list (list code_unit))
    (s : string) : option (list (list code_unit)) :=
  match s with
  | EmptyString =>
      match m with
      | AfterArray => Some (rev done)
      | _ => None
      end
  | String c r =>
      match m with
      | BeforeArray =>
          if is_whitespace c then scan BeforeArray cur done r
          else if Ascii.eqb c "["%char then scan FirstItem cur done r
          else None
      | FirstItem =>
          if is_whitespace c then scan FirstItem cur done r
          else if Ascii.eqb c "]"%char then scan AfterArray cur done r
          else if Ascii.eqb c quote then scan InString [] done r
          else None
      | NextItem =>
          if is_whitespace c then scan NextItem cur done r
          else if Ascii.eqb c quote then scan InString [] done r
          else None
      | AfterItem =>
          if is_whitespace c then scan AfterItem cur done r
          else if Ascii.eqb c ","%char then scan NextItem cur done r
          else if Ascii.eqb c "]"%char then scan AfterArray cur done r
          else None
      | AfterArray =>
          if is_whitespace c then scan AfterArray cur done r else None
      | InString =>
          if Ascii.eqb c quote then scan AfterItem [] (rev cur :: done) r
          else if Ascii.eqb c backslash then
            match r with
            | String e r1 =>
                if Ascii.eqb e "u"%char then
                  match r1 with
                  | String h1 (String h2 (String h3 (String h4 r2))) =>
                      match hex4 h1 h2 h3 h4 with
                      | Some n => scan InString (Escaped n :: cur) done r2
                      | None => None
                      end
                  | _ => None
                  end
                else
                  match simple_escape e with
                  | Some x => scan InString (Raw x :: cur) done r1
                  | None => None
                  end
            | EmptyString => None
            end
          else if N.ltb (N_of_ascii c) 32 then None   (* strict=True *)
          else scan InString (Raw c :: cur) done r
      end
  end.

Definition byte (n : N) : ascii := ascii_of_N n.

(** UTF-8 encoding of a code point. *)
Definition utf8 (n : N) : string :=
  if N.ltb n 128 then String (byte n) ""
  else if N.ltb n 2048 then
    String (byte (192 + n / 64)) (String (byte (128 + n mod 64)) "")
  else if N.ltb n 65536 then
    String (byte (224 + n / 4096))
      (String (byte (128 + (n / 64) mod 64)) (String (byte (128 + n mod 64)) ""))
  else
    String (byte (240 + n / 262144))
      (String (byte (128 + (n / 4096) mod 64))
         (String (byte (128 + (n / 64) mod 64)) (String (byte (128 + n mod 64)) ""))).

Definition is_high_surrogate (n : N) : bool := (N.leb 55296 n && N.leb n 56319)%bool.
Definition is_low_surrogate (n : N) : bool := (N.leb 56320 n && N.leb n 57343)%bool.

(** The [str] of a scanned string.  Two escapes that form a surrogate
    pair are one code point.  A surrogate escape on its own is kept, by
    [json.loads] and by pydantic's [str] validation alike: it stays in the
    [str] as that code point, written here as the three bytes that UTF-8
    would give it. *)
Fixpoint to_str (us : list code_unit) : string :=
  match us with
  | [] => ""
  | Raw c :: rest => String c (to_str rest)
  | Escaped hi :: rest =>
      if is_high_surrogate hi then
        match rest with
        | Escaped lo :: rest' =>
            if is_low_surrogate lo
            then utf8 (65536 + (hi - 55296) * 1024 + (lo - 56320)) ++ to_str rest'
            else utf8 hi ++ to_str rest
        | _ => utf8 hi ++ to_str rest
        end
      else utf8 hi ++ to_str rest
  end.

(** [json.loads(text)] when the result is a list of [str]; any other text
    has no result here. *)
Definition loads_str_list (text : string) : option (list string) :=
  match scan BeforeArray [] [] text with
  | Some l => Some (map to_str l)
  | None => None
  end.

Fixpoint skip_whitespace (s : string) : string :=
  match s with
  | EmptyString => EmptyString
  | String c r => if is_whitespace c then skip_whitespace r else s
  end.

Fixpoint all_whitespace (s : string) : bool :=
  match s with
  | EmptyString => true
  | String c r => (is_whitespace c && all_whitespace r)%bool
  end.

(** [json.loads(text) is None]: the text is the literal null, with
    whitespace around it at most. *)
Definition is_null (text : string) : bool :=
  match skip_whitespace text with
  | String c1 rest =>
      if Ascii.eqb c1 "n"%char then
        match rest with
        | String c2 (String c3 (String c4 r)) =>
            (Ascii.eqb c2 "u"%char && Ascii.eqb c3 "l"%char && Ascii.eqb c4 "l"%char
             && all_whitespace r)%bool
        | _ => false
        end
      else false
  | EmptyString => false
  end.

End json.

(** ** pydantic_settings: how BaseSettings fills a field *)

Module pydantic_settings.

(** [str.lower()] on the ASCII letters.  The field names of this
    program are ASCII and contain no letter that is the lower case of a
    non-ASCII character, so other characters never matter for a match. *)
Definition lower_ascii (c : ascii) : ascii :=
  let n := N_of_ascii c in
  if (N.leb 65 n && N.leb n 90)%bool then ascii_of_N (n + 32) else c.

Fixpoint lower (s : string) : string :=
  match s with
  | EmptyString => EmptyString
  | String c r => String (lower_ascii c) (lower r)
  end.

(** [parse_env_vars(os.environ, case_sensitive=False)]: the dict
    [{k.lower(): v for k, v in os.environ.items()}].  A later variable
    replaces an earlier one with the same lower-cased name. *)
Definition parse_env_vars (env : environ) : gmap string string :=
  foldl (fun d kv => <[lower (fst kv) := snd kv]> d) ∅ env.

(** [EnvSettingsSource.__init__]: the environment is read when the
    settings object is constructed. *)
Definition env_settings_source : M (gmap string string) :=
  emit EvEnvSource ;;
  p <- get_process ;;
  ret (parse_env_vars (os_environ p)).

(** A field annotated [str]: the variable named like the field (prefix
    empty, case ignored) if there is one, else the default. *)
Definition str_field (env_vars : gmap string string) (name default : string) : string :=
  match env_vars !! lower name with
  | Some v => v
  | None => default
  end.

(** A field annotated [str | None]: not a complex type, the text of the
    variable is the value. *)
Definition optional_str_field (env_vars : gmap string string) (name : string)
    (default : option string) : option string :=
  match env_vars !! lower name with
  | Some v => Some v
  | None => default
  end.

(** A field annotated [list[str]]: a complex type, the text of the
    variable is decoded as JSON.  A text that decodes to null fills
    nothing, and the default stays; any other value is validated as a list
    of [str]; [None] when the decoding or the validation fails. *)
Definition str_list_field (env_vars : gmap string string) (name : string)
    (default : list string) : option (list string) :=
  match env_vars !! lower name with
  | Some text => if json.is_null text then Some default else json.loads_str_list text
  | None => Some default
  end.

End pydantic_settings.

(** ** functools *)

Module functools.

Definition cache_store (s : Settings) (p : process) : process :=
  {| os_environ := os_environ p; files := files p;
     get_settings_cache := Some s;
     logging_configured := logging_configured p; trace := trace p |}.

(** [@lru_cache] on a function without arguments: one cache entry.  A
    hit returns the cached object without calling the function; a call
    that raises stores nothing. *)
Definition lru_cache (f : M Settings) : M Settings :=
  fun p =>
    match get_settings_cache p with
    | Some s => (Returned s, p)
    | None =>
        match f p with
        | (Returned s, p') => (Returned s, cache_store s p')
        | (Raised e, p') => (Raised e, p')
        end
    end.

End functools.

(** ** src/settings.py *)

Module settings_py.

(** The names bound by lines 6 and 7 when the module is imported. *)
Record module_globals := {
  mod_google_cloud_project : option string;
  mod_default_region : option string;
}.

(** Lines 6-7, run once, at import. *)
Definition import_module : M module_globals :=
  gcp <- os.getenv "GOOGLE_CLOUD_PROJECT" ;;
  region <- os.getenv "DEFAULT_REGION" ;;
  ret {| mod_google_cloud_project := gcp; mod_default_region := region |}.

(** Lines 10-17, the class body: the value of each field, given the
    variables BaseSettings found.  The defaults of the last two fields are
    the values bound at import. *)
Definition Settings_fields (g : module_globals) (env_vars : gmap string string)
    : outcome Settings :=
  match pydantic_settings.str_list_field env_vars "allowed_origins" [] with
  | None => Raised (ValueError "allowed_origins")
  | Some origins =>
      Returned
        {| app_name := pydantic_settings.str_field env_vars "app_name" "Sample API";
           app_version := pydantic_settings.str_field env_vars "app_version" "0.1.0";
           allowed_origins := origins;
           google_cloud_project :=
             pydantic_settings.optional_str_field env_vars "google_cloud_project"
               (mod_google_cloud_project g);
           default_region :=
             pydantic_settings.optional_str_field env_vars "default_region"
               (mod_default_region g) |}
  end.

(** [Settings()]: BaseSettings reads the environment of the moment of the
    call, then the fields are filled and validated. *)
Definition Settings_new (g : module_globals) : M Settings :=
  env_vars <- pydantic_settings.env_settings_source ;;
  lift (Settings_fields g env_vars).

(** Lines 20-22. *)
Definition get_settings (g : module_globals) : M Settings :=
  functools.lru_cache (Settings_new g).

End settings_py.

(** ** json: encoding *)

Module json_encoder.

(** The JSON values this program sends: strings, and objects whose
    members are strings. *)
Inductive value :=
  | JString (s : string)
  | JObject (members : list (string * string)).

Definition hex_char (n : N) : ascii :=
  if N.ltb n 10 then ascii_of_N (48 + n) else ascii_of_N (87 + n).

(** [json.encoder.ESCAPE_DCT], for [ensure_ascii=False]. *)
Definition escape (c : ascii) : string :=
  let n := N_of_ascii c in
  if N.eqb n 34 then String json.backslash (String json.quote "")
  else if N.eqb n 92 then String json.backslash (String json.backslash "")
  else if N.eqb n 8 then String json.backslash "b"
  else if N.eqb n 12 then String json.backslash "f"
  else if N.eqb n 10 then String json.backslash "n"
  else if N.eqb n 13 then String json.backslash "r"
  else if N.eqb n 9 then String json.backslash "t"
  else if N.ltb n 32 then
    String json.backslash
      (String "u" (String "0" (String "0"
         (String (hex_char (n / 16)) (String (hex_char (n mod 16)) "")))))
  else String c "".

Fixpoint escape_all (s : string) : string :=
  match s with
  | EmptyString => ""
  | String c r => escape c ++ escape_all r
  end.

Definition dumps_str (s : string) : string :=
  String json.quote (escape_all s) ++ String json.quote "".

Fixpoint dumps_members (first : bool) (ms : list (string * string)) : string :=
  match ms with
  | [] => ""
  | (k, x) :: rest =>
      (if first then "" else ",") ++ dumps_str k ++ ":" ++ dumps_str x
        ++ dumps_members false rest
  end.

(** [json.dumps(v, ensure_ascii=False, separators=(",", ":"))], as
    Starlette's JSONResponse renders a body. *)
Definition dumps (v : value) : string :=
  match v with
  | JString s => dumps_str s
  | JObject members => "{" ++ dumps_members true members ++ "}"
  end.

End json_encoder.

(** ** HTTP messages *)

(** A request as the server hands it over: [headers] has the names in
    lower case (ASGI), [path] is the path without the query string. *)
Record Request := {
  method : string;
  path : string;
  query_string : string;
  headers : list (string * string);
}.

Inductive body :=
  | JSONBody (v : json_encoder.value)
  | TextBody (s : string).

(** Status and body of a response; response headers are not modelled. *)
Record Response := {
  status_code : N;
  content : body;
}.

(** ** src/schemas/response_body.py *)

Module schemas.

(** Modelled from the spec: the module [src/schemas/response_body.py],
    which declares [SimpleMessageResponse], is not among the sources.  The
    specification gives the Heartbeat Response one attribute, [message],
    a string, and its JSON form as an object with the one member
    [message]. *)
Record SimpleMessageResponse := {
  message : string;
}.

Definition model_dump (r : SimpleMessageResponse) : json_encoder.value :=
  json_encoder.JObject [("message", message r)].

End schemas.

(** ** Library behaviour left open *)

(** Starlette's CORSMiddleware, by the arguments of its constructor. *)
Record CORSMiddleware := {
  allow_origins : list string;
  allow_credentials : bool;
  allow_methods : list string;
  allow_headers : list string;
  expose_headers : list string;
}.

(** Parts of the libraries whose result is left open: every statement
    below holds whatever they are.
    - [logging_ini_valid content]: whether a file with this content holds
      the sections and keys that [fileConfig] reads;
    - [logging_handlers content env fs]: what building the formatters and
      handlers of such a configuration does in the environment [env] and
      the files [fs], which it may read and write (a file handler creates
      its log file): [None] when it raises, the files afterwards when it
      returns;
    - [preflight_response]: the reply of CORSMiddleware to a preflight
      request;
    - [docs_response]: the reply of the documentation routes that FastAPI
      adds to every application. *)
Class Libraries := {
  logging_ini_valid : string -> bool;
  logging_handlers : string -> environ -> gmap string file -> option (gmap string file);
  preflight_response : CORSMiddleware -> Request -> Response;
  docs_response : string -> Request -> Response;
}.

(** ** logging.config *)

Module logging_config.

(** Logging is configured, and the files are what the handlers left. *)
Definition set_logging_configured (fs : gmap string file) : M unit :=
  fun p =>
    (Returned tt,
     {| os_environ := os_environ p; files := fs;
        get_settings_cache := get_settings_cache p;
        logging_configured := true; trace := trace p |}).

(** [fileConfig(fname, disable_existing_loggers=...)]: raises unless
    [fname] exists, can be read and holds a valid configuration whose
    formatters and handlers can be built. *)
Definition fileConfig `{Libraries} (fname : string)
    (disable_existing_loggers : bool) : M unit :=
  emit (EvFileConfig fname) ;;
  p <- get_process ;;
  match files p !! fname with
  | Some (Readable text) =>
      if logging_ini_valid text then
        match logging_handlers text (os_environ p) (files p) with
        | Some fs => set_logging_configured fs
        | None => raise (LoggingConfigError fname)
        end
      else raise (LoggingConfigError fname)
  | Some Unreadable => raise (LoggingConfigError fname)
  | None => raise (LoggingConfigError fname)
  end.

End logging_config.

(** ** fastapi / starlette: routes, routers, the application *)

Module fastapi.

(** What a route calls. *)
Inductive endpoint :=
  (* a path operation function declared to return a SimpleMessageResponse *)
  | PathOperation (f : M schemas.SimpleMessageResponse)
  (* one of the routes FastAPI itself adds *)
  | Documentation (name : string).

Record Route := {
  route_path : string;
  route_methods : list string;
  route_endpoint : endpoint;
}.

Record APIRouter := {
  routes : list Route;
}.

Record FastAPI := {
  title : string;
  description : string;
  version : string;
  (* outermost first: add_middleware inserts at the front *)
  user_middleware : list CORSMiddleware;
  router : APIRouter;
}.

(** [APIRouter()] *)
Definition APIRouter_new : APIRouter := {| routes := [] |}.

(** [@router.get(path=...)] on [f]: one more route, for GET only. *)
Definition get (r : APIRouter) (path : string)
    (f : M schemas.SimpleMessageResponse) : APIRouter :=
  {| routes := routes r ++
       [{| route_path := path; route_methods := ["GET"];
           route_endpoint := PathOperation f |}] |}.

(** [FastAPI(title=..., description=..., version=...)].  The OpenAPI
    route is on by default, and for it the constructor asserts that the
    title and then the version are not empty.  The application has no
    middleware yet, and the four documentation routes (GET and HEAD). *)
Definition FastAPI_new (title description version : string) : M FastAPI :=
  if String.eqb title "" then
    raise (AssertionError "A title must be provided for OpenAPI, e.g.: 'My API'")
  else if String.eqb version "" then
    raise (AssertionError "A version must be provided for OpenAPI, e.g.: '2.1.0'")
  else
    emit EvAppConstructed ;;
    ret {| title := title; description := description; version := version;
           user_middleware := [];
           router := {| routes :=
             map (fun url => {| route_path := url; route_methods := ["GET"; "HEAD"];
                                route_endpoint := Documentation url |})
               ["/openapi.json"; "/docs"; "/docs/oauth2-redirect"; "/redoc"] |} |}.

(** [app.add_middleware(CORSMiddleware, ...)] *)
Definition add_middleware (app : FastAPI) (mw : CORSMiddleware) : FastAPI :=
  {| title := title app; description := description app; version := version app;
     user_middleware := mw :: user_middleware app;
     router := router app |}.

(** [app.include_router(r, prefix=...)]: every route of [r] is added
    under [prefix ++ path]. *)
Definition include_router (app : FastAPI) (r : APIRouter) (prefix : string) : FastAPI :=
  {| title := title app; description := description app; version := version app;
     user_middleware := user_middleware app;
     router := {| routes := routes (router app) ++
       map (fun rt => {| route_path := prefix ++ route_path rt;
                         route_methods := route_methods rt;
                         route_endpoint := route_endpoint rt |}) (routes r) |} |}.

(** *** Serving a request *)

Inductive Match := NONE | PARTIAL | FULL.

Definition line_feed : string := String "010"%char "".

(** The path of a route without parameters is compiled to the regular
    expression [^path$], which Python matches against the whole request
    path, or against the request path without one final line feed. *)
Definition path_matches (route_path request_path : string) : bool :=
  (String.eqb request_path route_path
   || String.eqb request_path (route_path ++ line_feed))%bool.

Definition matches (rt : Route) (req : Request) : Match :=
  if path_matches (route_path rt) (path req) then
    if existsb (String.eqb (method req)) (route_methods rt) then FULL else PARTIAL
  else NONE.

Definition JSONResponse (status : N) (v : json_encoder.value) : Response :=
  {| status_code := status; content := JSONBody v |}.

Definition http_exception (status : N) (detail : string) : Response :=
  JSONResponse status (json_encoder.JObject [("detail", detail)]).

(** A route handles a request that matched it fully. *)
Definition handle `{Libraries} (rt : Route) (req : Request) : M Response :=
  match route_endpoint rt with
  | PathOperation f =>
      r <- f ;;
      ret (JSONResponse 200 (schemas.model_dump r))
  | Documentation name => ret (docs_response name req)
  end.

Fixpoint rstrip_slashes_rev (r : string) : string :=
  match r with
  | String c rest => if Ascii.eqb c "/"%char then rstrip_slashes_rev rest else r
  | EmptyString => EmptyString
  end.

Fixpoint rev_string (s acc : string) : string :=
  match s with
  | EmptyString => acc
  | String c r => rev_string r (String c acc)
  end.

Definition endswith_slash (s : string) : bool :=
  match rev_string s "" with
  | String c _ => Ascii.eqb c "/"%char
  | EmptyString => false
  end.

(** The path that [redirect_slashes] tries when no route matched. *)
Definition toggle_slash (p : string) : string :=
  if endswith_slash p then rev_string (rstrip_slashes_rev (rev_string p "")) ""
  else p ++ "/".

Definition with_path (req : Request) (p : string) : Request :=
  {| method := method req; path := p; query_string := query_string req;
     headers := headers req |}.

(** [Router.app]: the first route that matches fully handles the
    request; else the first route whose path matches answers 405; else a
    redirect if the path with the final slash toggled matches a route;
    else 404. *)
Fixpoint dispatch `{Libraries} (rts : list Route) (partial : option Route)
    (req : Request) : option (M Response) :=
  match rts with
  | [] =>
      match partial with
      | Some _ => Some (ret (http_exception 405 "Method Not Allowed"))
      | None => None
      end
  | rt :: rest =>
      match matches rt req with
      | FULL => Some (handle rt req)
      | PARTIAL =>
          dispatch rest (match partial with Some r => Some r | None => Some rt end) req
      | NONE => dispatch rest partial req
      end
  end.

Definition router_call `{Libraries} (r : APIRouter) (req : Request) : M Response :=
  match dispatch (routes r) None req with
  | Some c => c
  | None =>
      if (negb (String.eqb (path req) "/")
          && existsb (fun rt =>
               match matches rt (with_path req (toggle_slash (path req))) with
               | NONE => false
               | _ => true
               end) (routes r))%bool
      then ret {| status_code := 307; content := TextBody "" |}
      else ret (http_exception 404 "Not Found")
  end.

(** [Headers.get(name)]: the first header of that name. *)
Definition header (name : string) (req : Request) : option string :=
  snd <$> find (fun h => String.eqb (fst h) name) (headers req).

(** [CORSMiddleware.__call__] around the application [inner]: without an
    Origin header the request goes through; a preflight request is
    answered by the middleware; any other request goes through and only
    the headers of its response are changed. *)
Definition cors_call `{Libraries} (mw : CORSMiddleware)
    (inner : Request -> M Response) (req : Request) : M Response :=
  match header "origin" req with
  | None => inner req
  | Some _ =>
      if (String.eqb (method req) "OPTIONS"
          && bool_decide (is_Some (header "access-control-request-method" req)))%bool
      then ret (preflight_response mw req)
      else inner req
  end.

(** [app(scope, receive, send)]: the middleware stack around the router. *)
Definition call `{Libraries} (app : FastAPI) (req : Request) : M Response :=
  fold_right (fun mw inner => cors_call mw inner) (router_call (router app))
    (user_middleware app) req.

End fastapi.

(** ** src/routes/heartbeat.py *)

Module heartbeat_py.

(** Lines 11-12. *)
Definition heartbeat : M schemas.SimpleMessageResponse :=
  ret {| schemas.message := "alive" |}.

(** Lines 5 and 8-10: the router with the one route. *)
Definition router : fastapi.APIRouter :=
  fastapi.get fastapi.APIRouter_new "" heartbeat.

End heartbeat_py.

(** ** src/main.py *)

Module main_py.

(** The names bound by the module. *)
Record module_globals := {
  settings : Settings;
  app : fastapi.FastAPI;
}.

(** The module body, run once when the server imports [src.main]. *)
Definition import_module `{Libraries} : M module_globals :=
  (* line 7 binds heartbeat_py.router; line 8 runs src/settings.py *)
  g <- settings_py.import_module ;;
  (* line 10; line 11 binds root_logger to the root logger *)
  logging_config.fileConfig "src/logging.ini" false ;;
  (* line 13 *)
  settings <- settings_py.get_settings g ;;
  (* lines 15-19 *)
  app <- fastapi.FastAPI_new (app_name settings) "API for the sample application."
           (app_version settings) ;;
  (* lines 21-33 *)
  let app := fastapi.add_middleware app
    {| allow_origins := allowed_origins settings;
       allow_credentials := false;
       allow_methods := ["GET"; "POST"; "OPTIONS"];
       allow_headers := ["Content-Type"; "Accept"; "Cache-Control"; "Origin"];
       expose_headers := ["Content-Disposition"] |} in
  (* lines 35-39 *)
  let app := fastapi.include_router app heartbeat_py.router "/api/heartbeat" in
  ret {| settings := settings; app := app |}.

End main_py.

(** ** The process as a whole *)

(** The text BaseSettings finds in [env] for the field [name], if any: the
    value of the last variable whose name is [name] up to letter case. *)
Definition field_env_value (env : environ) (name : string) : option string :=
  pydantic_settings.parse_env_vars env !! pydantic_settings.lower name.

(** The first [get_settings()] of a process: [src/settings.py] is imported
    (main.py, line 8) and the accessor is called (main.py, line 13). *)
Definition load_settings : M Settings :=
  g <- settings_py.import_module ;;
  settings_py.get_settings g.

(** The requests of [reqs] served one after the other. *)
Fixpoint serve_all `{Libraries} (app : fastapi.FastAPI) (reqs : list Request)
    : M (list Response) :=
  match reqs with
  | [] => ret []
  | req :: rest =>
      r <- fastapi.call app req ;;
      rs <- serve_all app rest ;;
      ret (r :: rs)
  end.

(** What can happen in a process that runs the application [app]: the
    environment is changed from outside, a request is served, or some code
    calls [get_settings()] (with the defaults [g] fixed at import). *)
Inductive step `{Libraries} (app : fastapi.FastAPI) (g : settings_py.module_globals)
    : process -> process -> Prop :=
  | step_environ (p : process) (env : environ) :
      step app g p (set_environ env p)
  | step_request (p : process) (req : Request) (r : outcome Response) (p' : process) :
      fastapi.call app req p = (r, p') ->
      step app g p p'
  | step_get_settings (p : process) (r : outcome Settings) (p' : process) :
      settings_py.get_settings g p = (r, p') ->
      step app g p p'.

(** The request the heartbeat route is registered for. *)
Definition is_heartbeat_request (req : Request) : Prop :=
  method req = "GET" /\ path req = "/api/heartbeat".

Definition alive : json_encoder.value := json_encoder.JObject [("message", "alive")].

(** The text of the body: an opening brace, the member name and the value in
    quotes with a colon between them, a closing brace. *)
Definition alive_text : string :=
  "{" ++ String json.quote "message" ++ String json.quote ":"
      ++ String json.quote "alive" ++ String json.quote "}".

(** One choice of the open library parts, to run the model on examples. *)
Definition sample_libraries : Libraries :=
  {| logging_ini_valid := fun text => negb (String.eqb text "");
     logging_handlers := fun _ _ fs => Some fs;
     preflight_response := fun _ _ => {| status_code := 200; content := TextBody "OK" |};
     docs_response := fun _ _ => {| status_code := 200; content := TextBody "" |} |}.

(** The environment is replaced by [env]. *)
Definition put_environ (env : environ) : M unit :=
  fun p => (Returned tt, set_environ env p).

(** [get_settings()] called once after each change of the environment. *)
Fixpoint get_settings_after (g : settings_py.module_globals) (envs : list environ)
    : M (list Settings) :=
  match envs with
  | [] => ret []
  | env :: rest =>
      put_environ env ;;
      s <- settings_py.get_settings g ;;
      ss <- get_settings_after g rest ;;
      ret (s :: ss)
  end.

(** [json.dumps(l, ensure_ascii=False)] for a list of [str]: the items in
    brackets, separated by a comma and a space. *)
Fixpoint dumps_items (l : list string) : string :=
  match l with
  | [] => ""
  | s :: rest =>
      match rest with
      | [] => json_encoder.dumps_str s
      | _ :: _ => json_encoder.dumps_str s ++ ", " ++ dumps_items rest
      end
  end.

Definition dumps_str_list (l : list string) : string :=
  "[" ++ dumps_items l ++ "]".

(** What ALLOWED_ORIGINS says of the list [origins]: the variable is unset
    (in every letter case) and the list is empty, or the variable holds
    the JSON text of the list, as [dumps_str_list] writes it. *)
Definition allowed_origins_given (env : environ) (origins : list string) : Prop :=
  match field_env_value env "allowed_origins" with
  | None => origins = []
  | Some text => text = dumps_str_list origins
  end.

(** No variable of [env] has the name [name] in another letter case. *)
Definition only_spelling (env : environ) (name : string) : bool :=
  forallb (fun kv =>
    implb (String.eqb (pydantic_settings.lower (fst kv)) (pydantic_settings.lower name))
          (String.eqb (fst kv) name)) env.

(** A computation that returns the same value in every state of the
    process and leaves the state as it is. *)
Definition stateless {A} (c : M A) : Prop :=
  exists a, forall p, c p = (Returned a, p).

(** Every path operation of the application is stateless. *)
Definition stateless_routes (rts : list fastapi.Route) : Prop :=
  Forall (fun rt =>
    match fastapi.route_endpoint rt with
    | fastapi.PathOperation f => stateless f
    | fastapi.Documentation _ => True
    end) rts.

(** [e1] occurs in [tr], and [e2] does not occur before it. *)
Definition not_before (e1 e2 : event) (tr : list event) : Prop :=
  exists pre post, tr = (pre ++ e1 :: post)%list /\ e2 ∉ pre.

(** ** Examples to run the model on *)

(** A process started in a directory that holds [src/logging.ini]. *)
Definition sample_process : process :=
  initial [("GOOGLE_CLOUD_PROJECT", "my-proj"); ("HOME", "/root")]
    {[ "src/logging.ini" := Readable "[loggers]" ]}.

(** Two heartbeat requests: a bare one, and one from a browser page of
    another origin with a query string. *)
Definition sample_requests : list Request :=
  [ {| method := "GET"; path := "/api/heartbeat"; query_string := ""; headers := [] |};
    {| method := "GET"; path := "/api/heartbeat"; query_string := "verbose=1";
       headers := [("origin", "https://example.org"); ("accept", "*/*")] |} ].

(** ** Further notions used by the properties *)

(** How the scanner of [json] sees a character that [json_encoder.escape]
    wrote: the control characters without a one-letter escape come back
    as the unit of a [\u00XX] escape, every other character as itself. *)
Definition unit_of (c : ascii) : json.code_unit :=
  let n := N_of_ascii c in
  if (N.ltb n 32
      && negb (N.eqb n 8 || N.eqb n 9 || N.eqb n 10 || N.eqb n 12 || N.eqb n 13))%bool
  then json.Escaped n
  else json.Raw c.

Fixpoint units_of (s : string) : list json.code_unit :=
  match s with
  | EmptyString => []
  | String c r => unit_of c :: units_of r
  end.

(** The first character of [text] after JSON whitespace is [c]. *)
Fixpoint opens_with (c : ascii) (text : string) : bool :=
  match text with
  | EmptyString => false
  | String x r => if json.is_whitespace x then opens_with c r else Ascii.eqb x c
  end.

(** The request is a CORS preflight, which CORSMiddleware answers itself:
    it has an Origin header, the method OPTIONS and an
    Access-Control-Request-Method header. *)
Definition is_preflight (req : Request) : bool :=
  match fastapi.header "origin" req with
  | Some _ =>
      (String.eqb (method req) "OPTIONS"
       && bool_decide (is_Some (fastapi.header "access-control-request-method" req)))%bool
  | None => false
  end.



(** ** Proof automation *)

(** Closes a goal [e ∉ l] for an event [e] that differs from every element
    of the explicit list [l]. *)
Ltac event_not_in :=
  let Hin := fresh "Hin" in
  intros Hin;
  repeat (apply elem_of_cons in Hin as [Hin|Hin]; [discriminate Hin|]);
  inversion Hin.

(** * Properties *)

(** ** The environment as BaseSettings sees it *)

Lemma parse_env_vars_snoc (env : environ) (k v : string) :
  pydantic_settings.parse_env_vars (env ++ [(k, v)])%list
  = <[pydantic_settings.lower k := v]> (pydantic_settings.parse_env_vars env).
Proof. unfold pydantic_settings.parse_env_vars. rewrite foldl_snoc. reflexivity. Qed.

Lemma field_env_value_None (env : environ) (name : string) :
  field_env_value env name = None <->
  forall k v, (k, v) ∈ env -> pydantic_settings.lower k <> pydantic_settings.lower name.
Proof.
  unfold field_env_value.
  induction env as [|[k v] env IH] using rev_ind.
  - split; [intros _ k v Hin; inversion Hin | intros _; apply lookup_empty].
  - rewrite parse_env_vars_snoc. split.
    + intros Hnone k' v' Hin.
      apply lookup_insert_None in Hnone as [Hrest Hne].
      apply elem_of_app in Hin as [Hin | Hin].
      * by apply (proj1 IH Hrest k' v').
      * apply list_elem_of_singleton in Hin. by inversion Hin; subst.
    + intros Hall. apply lookup_insert_None. split.
      * apply IH. intros k' v' Hin. apply (Hall k' v'). apply elem_of_app. by left.
      * apply (Hall k v). apply elem_of_app. right. by apply list_elem_of_singleton.
Qed.

Lemma field_env_value_Some (env : environ) (name v : string) :
  field_env_value env name = Some v ->
  exists k, (k, v) ∈ env /\ pydantic_settings.lower k = pydantic_settings.lower name.
Proof.
  unfold field_env_value.
  induction env as [|[k w] env IH] using rev_ind.
  - cbn. rewrite lookup_empty. discriminate.
  - rewrite parse_env_vars_snoc. intros Hsome.
    apply lookup_insert_Some in Hsome as [[Hk Hv] | [Hk Hrest]].
    + subst. exists k. split; [|done]. apply elem_of_app. right. by apply list_elem_of_singleton.
    + destruct (IH Hrest) as (k' & Hin & Hl). exists k'. split; [|done].
      apply elem_of_app. by left.
Qed.

Lemma environ_get_elem_of (env : environ) (k v : string) :
  os.environ_get env k = Some v -> (k, v) ∈ env.
Proof.
  induction env as [|[k' v'] env IH]; simpl; [discriminate|].
  destruct (String.eqb_spec k' k) as [->|Hne].
  - intros [= ->]. apply list_elem_of_here.
  - intros Hget. apply list_elem_of_further. by apply IH.
Qed.

Lemma environ_get_NoDup (env : environ) (k v : string) :
  NoDup (map fst env) -> (k, v) ∈ env -> os.environ_get env k = Some v.
Proof.
  induction env as [|[k' v'] env IH]; simpl; intros Hnd Hin.
  - inversion Hin.
  - apply NoDup_cons in Hnd as [Hnotin Hnd].
    apply elem_of_cons in Hin as [Heq | Hin].
    + inversion Heq; subst. by rewrite String.eqb_refl.
    + destruct (String.eqb_spec k' k) as [->|Hne]; [|by apply IH].
      exfalso. apply Hnotin. apply list_elem_of_fmap. by exists (k, v).
Qed.


Lemma field_env_value_None_environ_get (env : environ) (name key : string) :
  field_env_value env name = None ->
  pydantic_settings.lower key = pydantic_settings.lower name ->
  os.environ_get env key = None.
Proof.
  intros Hnone Hlower.
  destruct (os.environ_get env key) as [v|] eqn:Hget; [|reflexivity].
  apply environ_get_elem_of in Hget.
  exfalso. exact (proj1 (field_env_value_None env name) Hnone key v Hget Hlower).
Qed.

Lemma only_spelling_spec (env : environ) (name k v : string) :
  only_spelling env name = true -> (k, v) ∈ env ->
  pydantic_settings.lower k = pydantic_settings.lower name -> k = name.
Proof.
  unfold only_spelling. rewrite forallb_forall. intros Hall Hin Hlower.
  specialize (Hall (k, v) (proj1 (list_elem_of_In _ _) Hin)). simpl in Hall.
  rewrite Hlower, String.eqb_refl in Hall. simpl in Hall.
  by apply String.eqb_eq.
Qed.

(** With unique names and no other spelling of [name], BaseSettings finds
    for the field what [os.getenv(name)] returns. *)
Lemma field_env_value_environ_get (env : environ) (name : string) :
  NoDup (map fst env) -> only_spelling env name = true ->
  field_env_value env name = os.environ_get env name.
Proof.
  intros Hnd Honly.
  destruct (field_env_value env name) as [v|] eqn:Hfield.
  - apply field_env_value_Some in Hfield as (k & Hin & Hlower).
    assert (k = name) as -> by exact (only_spelling_spec env name k v Honly Hin Hlower).
    symmetry. by apply environ_get_NoDup.
  - symmetry. by apply (field_env_value_None_environ_get env name).
Qed.

(** ** Decoding what the encoder writes *)

Lemma string_append_assoc (a b c : string) : (a ++ b) ++ c = a ++ (b ++ c).
Proof.
  induction a as [|x a IH]; [reflexivity|].
  change (String x ((a ++ b) ++ c) = String x (a ++ (b ++ c))).
  by rewrite IH.
Qed.

Lemma scan_escape (c : ascii) (cur : list json.code_unit)
    (done : list (list json.code_unit)) (r : string) :
  json.scan json.InString cur done (json_encoder.escape c ++ r)
  = json.scan json.InString (unit_of c :: cur) done r.
Proof.
  destruct c as [[] [] [] [] [] [] [] []]; reflexivity.
Qed.

Lemma scan_escape_all (s : string) (cur : list json.code_unit)
    (done : list (list json.code_unit)) (r : string) :
  json.scan json.InString cur done (json_encoder.escape_all s ++ r)
  = json.scan json.InString (rev (units_of s) ++ cur)%list done r.
Proof.
  revert cur. induction s as [|c s IH]; intros cur; [reflexivity|].
  cbn [json_encoder.escape_all units_of].
  rewrite string_append_assoc, scan_escape, IH.
  cbn [rev]. by rewrite <- app_assoc.
Qed.

Lemma to_str_unit_of (c : ascii) (us : list json.code_unit) :
  json.to_str (unit_of c :: us) = String c (json.to_str us).
Proof.
  destruct c as [[] [] [] [] [] [] [] []]; reflexivity.
Qed.

Lemma to_str_units_of (s : string) : json.to_str (units_of s) = s.
Proof.
  induction s as [|c s IH]; [reflexivity|].
  cbn [units_of]. by rewrite to_str_unit_of, IH.
Qed.

Lemma to_strs_units_of (l : list string) : map json.to_str (map units_of l) = l.
Proof.
  induction l as [|s l IH]; [reflexivity|].
  cbn [map]. by rewrite to_str_units_of, IH.
Qed.

(** A string item: from the opening quote to the closing one. *)
Lemma scan_dumps_str (s : string) (done : list (list json.code_unit)) (r : string) :
  json.scan json.InString [] done
    (json_encoder.escape_all s ++ String json.quote r)
  = json.scan json.AfterItem [] (units_of s :: done) r.
Proof.
  rewrite scan_escape_all. cbn. by rewrite app_nil_r, rev_involutive.
Qed.

(** The text that follows an item of a list whose remaining items are
    [l]. *)
Lemma dumps_items_cons (s : string) (l : list string) :
  dumps_items (s :: l) ++ "]"
  = String json.quote
      (json_encoder.escape_all s
       ++ String json.quote
            (match l with
             | [] => "]"
             | _ :: _ => ", " ++ dumps_items l ++ "]"
             end)).
Proof.
  cbn [dumps_items]. unfold json_encoder.dumps_str.
  destruct l as [|s' l]; cbn [String.append]; f_equal;
    rewrite !string_append_assoc; reflexivity.
Qed.

Lemma scan_after_item (l : list string) (done : list (list json.code_unit)) :
  json.scan json.AfterItem [] done
    (match l with
     | [] => "]"
     | _ :: _ => ", " ++ dumps_items l ++ "]"
     end)
  = Some (rev done ++ map units_of l)%list.
Proof.
  revert done. induction l as [|s l IH]; intros done.
  - cbn. by rewrite app_nil_r.
  - rewrite dumps_items_cons.
    change (json.scan json.InString [] done
              (json_encoder.escape_all s
               ++ String json.quote
                    (match l with
                     | [] => "]"
                     | _ :: _ => ", " ++ dumps_items l ++ "]"
                     end))
            = Some (rev done ++ map units_of (s :: l))%list).
    rewrite scan_dumps_str, IH. cbn [rev map]. by rewrite <- app_assoc.
Qed.

Lemma loads_dumps_str_list (l : list string) :
  json.loads_str_list (dumps_str_list l) = Some l.
Proof.
  unfold json.loads_str_list, dumps_str_list.
  destruct l as [|s l]; [reflexivity|].
  rewrite dumps_items_cons.
  change (match json.scan json.InString [] []
                  (json_encoder.escape_all s
                   ++ String json.quote
                        (match l with
                         | [] => "]"
                         | _ :: _ => ", " ++ dumps_items l ++ "]"
                         end))
          with
          | Some l0 => Some (map json.to_str l0)
          | None => None
          end = Some (s :: l)).
  rewrite scan_dumps_str, scan_after_item. cbn [rev app].
  f_equal. exact (to_strs_units_of (s :: l)).
Qed.


Lemma is_null_dumps_str_list (l : list string) : json.is_null (dumps_str_list l) = false.
Proof. reflexivity. Qed.

Lemma skip_whitespace_opens (c : ascii) (text : string) :
  opens_with c text = false ->
  match json.skip_whitespace text with
  | EmptyString => True
  | String x _ => Ascii.eqb x c = false
  end.
Proof.
  induction text as [|x text IH]; [done|]. cbn [opens_with json.skip_whitespace].
  by destruct (json.is_whitespace x).
Qed.

Lemma is_null_opens (text : string) :
  opens_with "n" text = false -> json.is_null text = false.
Proof.
  intros Hopen. apply skip_whitespace_opens in Hopen. unfold json.is_null.
  destruct (json.skip_whitespace text) as [|c1 rest]; [reflexivity|].
  by rewrite Hopen.
Qed.

Lemma scan_not_array (text : string) (cur : list json.code_unit)
    (done : list (list json.code_unit)) :
  opens_with "[" text = false -> json.scan json.BeforeArray cur done text = None.
Proof.
  induction text as [|c text IH]; [reflexivity|]. cbn [opens_with json.scan].
  destruct (json.is_whitespace c); [exact IH|]. by intros ->.
Qed.

(** ** Loading the settings *)

Lemma Settings_new_eq (g : settings_py.module_globals) (p : process) :
  settings_py.Settings_new g p =
    (settings_py.Settings_fields g (pydantic_settings.parse_env_vars (os_environ p)),
     snd (emit EvEnvSource p)).
Proof. reflexivity. Qed.

Lemma get_settings_hit (g : settings_py.module_globals) (p : process) (s : Settings) :
  get_settings_cache p = Some s -> settings_py.get_settings g p = (Returned s, p).
Proof.
  intros Hcache. unfold settings_py.get_settings, functools.lru_cache.
  by rewrite Hcache.
Qed.

Lemma get_settings_miss (g : settings_py.module_globals) (p : process) :
  get_settings_cache p = None ->
  settings_py.get_settings g p =
    match settings_py.Settings_fields g (pydantic_settings.parse_env_vars (os_environ p)) with
    | Returned s => (Returned s, functools.cache_store s (snd (emit EvEnvSource p)))
    | Raised e => (Raised e, snd (emit EvEnvSource p))
    end.
Proof.
  intros Hcache. unfold settings_py.get_settings, functools.lru_cache.
  rewrite Hcache, Settings_new_eq.
  by destruct (settings_py.Settings_fields _ _).
Qed.

Lemma get_settings_fills_cache (g : settings_py.module_globals) (p p' : process) (s : Settings) :
  settings_py.get_settings g p = (Returned s, p') -> get_settings_cache p' = Some s.
Proof.
  destruct (get_settings_cache p) as [s0|] eqn:Hcache.
  - rewrite (get_settings_hit g p s0 Hcache). by intros [= <- <-].
  - rewrite (get_settings_miss g p Hcache).
    destruct (settings_py.Settings_fields _ _); [|discriminate].
    by intros [= <- <-].
Qed.

Lemma import_settings_eq (p : process) :
  settings_py.import_module p =
    (Returned {| settings_py.mod_google_cloud_project :=
                   os.environ_get (os_environ p) "GOOGLE_CLOUD_PROJECT";
                 settings_py.mod_default_region :=
                   os.environ_get (os_environ p) "DEFAULT_REGION" |},
     snd (emit (EvGetenv "DEFAULT_REGION") (snd (emit (EvGetenv "GOOGLE_CLOUD_PROJECT") p)))).
Proof. reflexivity. Qed.

Lemma load_settings_eq (env : environ) (fs : gmap string file) :
  load_settings (initial env fs) =
    let g := {| settings_py.mod_google_cloud_project := os.environ_get env "GOOGLE_CLOUD_PROJECT";
                settings_py.mod_default_region := os.environ_get env "DEFAULT_REGION" |} in
    let tr := [EvGetenv "GOOGLE_CLOUD_PROJECT"; EvGetenv "DEFAULT_REGION"; EvEnvSource] in
    match settings_py.Settings_fields g (pydantic_settings.parse_env_vars env) with
    | Returned s =>
        (Returned s,
         {| os_environ := env; files := fs; get_settings_cache := Some s;
            logging_configured := false; trace := tr |})
    | Raised e =>
        (Raised e,
         {| os_environ := env; files := fs; get_settings_cache := None;
            logging_configured := false; trace := tr |})
    end.
Proof.
  unfold load_settings, bind. rewrite import_settings_eq. cbn [snd emit].
  rewrite get_settings_miss by reflexivity. cbn.
  by destruct (settings_py.Settings_fields _ _).
Qed.

Lemma str_field_eq (env : environ) (name d : string) :
  pydantic_settings.str_field (pydantic_settings.parse_env_vars env) name d
  = default d (field_env_value env name).
Proof.
  unfold pydantic_settings.str_field, field_env_value.
  by destruct (pydantic_settings.parse_env_vars env !! pydantic_settings.lower name).
Qed.

Lemma optional_str_field_eq (env : environ) (name : string) (d : option string) :
  pydantic_settings.optional_str_field (pydantic_settings.parse_env_vars env) name d
  = match field_env_value env name with Some v => Some v | None => d end.
Proof. reflexivity. Qed.

Lemma str_list_field_eq (env : environ) (name : string) (d : list string) :
  pydantic_settings.str_list_field (pydantic_settings.parse_env_vars env) name d
  = match field_env_value env name with
    | Some text => if json.is_null text then Some d else json.loads_str_list text
    | None => Some d
    end.
Proof. reflexivity. Qed.

(** The list that ALLOWED_ORIGINS gives is the list the field gets. *)
Lemma str_list_field_given (env : environ) (origins : list string) :
  allowed_origins_given env origins ->
  pydantic_settings.str_list_field (pydantic_settings.parse_env_vars env)
    "allowed_origins" [] = Some origins.
Proof.
  unfold allowed_origins_given. rewrite str_list_field_eq.
  destruct (field_env_value env "allowed_origins") as [text|]; [|by intros ->].
  intros ->. by rewrite is_null_dumps_str_list, loads_dumps_str_list.
Qed.

(** A text that opens neither as an array nor as null is refused. *)
Lemma str_list_field_refused (env : environ) (text : string) :
  field_env_value env "allowed_origins" = Some text ->
  opens_with "[" text = false ->
  opens_with "n" text = false ->
  pydantic_settings.str_list_field (pydantic_settings.parse_env_vars env)
    "allowed_origins" [] = None.
Proof.
  intros Hvar Harray Hnull. rewrite str_list_field_eq, Hvar, (is_null_opens text Hnull).
  unfold json.loads_str_list. by rewrite (scan_not_array text [] [] Harray).
Qed.

Lemma Settings_fields_defaults (g : settings_py.module_globals) (env : environ) :
  field_env_value env "allowed_origins" = None ->
  settings_py.Settings_fields g (pydantic_settings.parse_env_vars env) =
    Returned
      {| app_name := default "Sample API" (field_env_value env "app_name");
         app_version := default "0.1.0" (field_env_value env "app_version");
         allowed_origins := [];
         google_cloud_project :=
           match field_env_value env "google_cloud_project" with
           | Some v => Some v
           | None => settings_py.mod_google_cloud_project g
           end;
         default_region :=
           match field_env_value env "default_region" with
           | Some v => Some v
           | None => settings_py.mod_default_region g
           end |}.
Proof.
  intros Hnone. unfold settings_py.Settings_fields.
  rewrite str_list_field_eq, Hnone, !str_field_eq, !optional_str_field_eq.
  reflexivity.
Qed.

Lemma Settings_fields_optional (g : settings_py.module_globals) (env : environ) (s : Settings) :
  settings_py.Settings_fields g (pydantic_settings.parse_env_vars env) = Returned s ->
  google_cloud_project s =
    match field_env_value env "google_cloud_project" with
    | Some v => Some v
    | None => settings_py.mod_google_cloud_project g
    end
  /\ default_region s =
    match field_env_value env "default_region" with
    | Some v => Some v
    | None => settings_py.mod_default_region g
    end.
Proof.
  unfold settings_py.Settings_fields.
  destruct (pydantic_settings.str_list_field _ _ _); [|discriminate].
  intros [= <-]. split; apply optional_str_field_eq.
Qed.

Lemma Settings_fields_given (g : settings_py.module_globals) (env : environ)
    (origins : list string) :
  allowed_origins_given env origins ->
  settings_py.Settings_fields g (pydantic_settings.parse_env_vars env) =
    Returned
      {| app_name := default "Sample API" (field_env_value env "app_name");
         app_version := default "0.1.0" (field_env_value env "app_version");
         allowed_origins := origins;
         google_cloud_project :=
           match field_env_value env "google_cloud_project" with
           | Some v => Some v
           | None => settings_py.mod_google_cloud_project g
           end;
         default_region :=
           match field_env_value env "default_region" with
           | Some v => Some v
           | None => settings_py.mod_default_region g
           end |}.
Proof.
  intros Hgiven. unfold settings_py.Settings_fields.
  rewrite (str_list_field_given env origins Hgiven), !str_field_eq, !optional_str_field_eq.
  reflexivity.
Qed.

(** C2: once a call of get_settings() has returned a value, every later
    call returns that same value, whatever the environment has been changed
    to before each of them, and reads nothing: the trace of the process
    gets no new event. *)
Theorem get_settings_memoized (g : settings_py.module_globals) (p p1 : process) (s : Settings) :
  settings_py.get_settings g p = (Returned s, p1) ->
  forall envs : list environ,
    exists p2,
      get_settings_after g envs p1 = (Returned (replicate (List.length envs) s), p2)
      /\ get_settings_cache p2 = Some s
      /\ trace p2 = trace p1.
Proof.
  intros Hfirst envs.
  apply get_settings_fills_cache in Hfirst.
  revert p1 Hfirst.
  induction envs as [|env envs IH]; intros p1 Hcache.
  - exists p1. by repeat split.
  - destruct (IH (set_environ env p1) Hcache) as (p2 & Hrun & Hc2 & Htr).
    exists p2. repeat split; [|done|done].
    cbn [get_settings_after]. unfold bind at 1, put_environ.
    unfold bind at 1. rewrite (get_settings_hit g (set_environ env p1) s Hcache).
    unfold bind at 1. rewrite Hrun. reflexivity.
Qed.

Lemma get_settings_memoized_witness :
  let g := {| settings_py.mod_google_cloud_project := None;
              settings_py.mod_default_region := None |} in
  let s := {| app_name := "Sample API"; app_version := "0.1.0"; allowed_origins := [];
              google_cloud_project := Some "my-proj"; default_region := None |} in
  exists p2,
    get_settings_after g [[("GOOGLE_CLOUD_PROJECT", "other")]; []]
      (functools.cache_store s (snd (emit EvEnvSource
         (initial [("GOOGLE_CLOUD_PROJECT", "my-proj")] ∅))))
    = (Returned [s; s], p2)
    /\ get_settings_cache p2 = Some s
    /\ trace p2 = [EvEnvSource].
Proof.
  intros g s.
  refine (get_settings_memoized g (initial [("GOOGLE_CLOUD_PROJECT", "my-proj")] ∅)
            _ s _ [[("GOOGLE_CLOUD_PROJECT", "other")]; []]).
  vm_compute. reflexivity.
Defined.

(** C3 fails as stated: with APP_NAME, APP_VERSION and ALLOWED_ORIGINS in
    the environment, the first get_settings() returns their values, not the
    defaults. *)
Lemma defaults_are_overridden_by_environment :
  exists p',
    load_settings
      (initial [("APP_NAME", "Other API"); ("APP_VERSION", "9.9.9");
                ("ALLOWED_ORIGINS",
                 "[" ++ String json.quote "https://example.org" ++ String json.quote "]")] ∅)
    = (Returned {| app_name := "Other API"; app_version := "9.9.9";
                   allowed_origins := ["https://example.org"];
                   google_cloud_project := None; default_region := None |}, p').
Proof. eexists. vm_compute. reflexivity. Qed.

(** C3, amended: in an environment with no variable named APP_NAME,
    APP_VERSION or ALLOWED_ORIGINS (in any letter case), the first
    get_settings() returns, and the application name, the version and the
    allowed origins are the defaults of the class body. *)
Theorem settings_defaults_without_override (env : environ) (fs : gmap string file) :
  field_env_value env "app_name" = None ->
  field_env_value env "app_version" = None ->
  field_env_value env "allowed_origins" = None ->
  exists s p',
    load_settings (initial env fs) = (Returned s, p')
    /\ app_name s = "Sample API"
    /\ app_version s = "0.1.0"
    /\ allowed_origins s = [].
Proof.
  intros Hname Hversion Horigins.
  rewrite load_settings_eq. cbv zeta.
  rewrite (Settings_fields_defaults _ env Horigins), Hname, Hversion.
  eexists _, _. split; [reflexivity|]. by repeat split.
Qed.

Lemma settings_defaults_without_override_witness :
  exists s p',
    load_settings (initial [("GOOGLE_CLOUD_PROJECT", "my-proj"); ("HOME", "/root")] ∅)
      = (Returned s, p')
    /\ app_name s = "Sample API"
    /\ app_version s = "0.1.0"
    /\ allowed_origins s = [].
Proof.
  apply (settings_defaults_without_override
           [("GOOGLE_CLOUD_PROJECT", "my-proj"); ("HOME", "/root")] ∅);
    vm_compute; reflexivity.
Defined.

(** C4 fails as stated: GOOGLE_CLOUD_PROJECT is set when src/settings.py
    is imported and removed before the first get_settings(); the Settings
    still carry the value read at import, which the environment of the
    first call does not have. *)
Lemma import_time_value_survives_unset :
  exists g p0 s p1,
    settings_py.import_module (initial [("GOOGLE_CLOUD_PROJECT", "old-proj")] ∅)
      = (Returned g, p0)
    /\ settings_py.get_settings g (set_environ [] p0) = (Returned s, p1)
    /\ google_cloud_project s = Some "old-proj"
    /\ os.environ_get (os_environ (set_environ [] p0)) "GOOGLE_CLOUD_PROJECT" = None
    /\ trace p0 = [EvGetenv "GOOGLE_CLOUD_PROJECT"; EvGetenv "DEFAULT_REGION"].
Proof. eexists _, _, _, _. vm_compute. repeat split. Qed.

(** C4, amended: the two variables are read when src/settings.py is
    imported (environment [env0]) and again at the first get_settings()
    (environment [env]).  A variable that [env] holds, under any letter
    case of its name, gives the field its value in [env]; a variable that
    [env] does not hold leaves the field at the value read at import. *)
Theorem first_call_reads_environment_over_import_defaults
    (env0 env : environ) (fs : gmap string file)
    (g : settings_py.module_globals) (p0 p1 : process) (s : Settings) :
  settings_py.import_module (initial env0 fs) = (Returned g, p0) ->
  settings_py.get_settings g (set_environ env p0) = (Returned s, p1) ->
  google_cloud_project s =
    match field_env_value env "google_cloud_project" with
    | Some v => Some v
    | None => os.environ_get env0 "GOOGLE_CLOUD_PROJECT"
    end
  /\ default_region s =
    match field_env_value env "default_region" with
    | Some v => Some v
    | None => os.environ_get env0 "DEFAULT_REGION"
    end.
Proof.
  rewrite import_settings_eq. intros [= <- <-].
  rewrite get_settings_miss by reflexivity.
  destruct (settings_py.Settings_fields _ _) as [s'|e] eqn:Hfields; [|discriminate].
  intros [= <- <-]. exact (Settings_fields_optional _ _ _ Hfields).
Qed.

Lemma first_call_reads_environment_over_import_defaults_witness :
  let env0 := [("GOOGLE_CLOUD_PROJECT", "old-proj"); ("DEFAULT_REGION", "us-central1")] in
  let env := [("GOOGLE_CLOUD_PROJECT", "new-proj")] in
  let s := {| app_name := "Sample API"; app_version := "0.1.0"; allowed_origins := [];
              google_cloud_project := Some "new-proj";
              default_region := Some "us-central1" |} in
  google_cloud_project s =
    match field_env_value env "google_cloud_project" with
    | Some v => Some v
    | None => os.environ_get env0 "GOOGLE_CLOUD_PROJECT"
    end
  /\ default_region s =
    match field_env_value env "default_region" with
    | Some v => Some v
    | None => os.environ_get env0 "DEFAULT_REGION"
    end.
Proof.
  intros env0 env s.
  refine (first_call_reads_environment_over_import_defaults env0 env ∅ _ _ _ s _ _);
    vm_compute; reflexivity.
Defined.




(** X3: a get_settings() that raises stores nothing in the cache and
    leaves the environment as it is, so the next call constructs the
    settings anew from the environment of its own moment. *)
Lemma failed_get_settings_is_retried (g : settings_py.module_globals)
    (p p1 : process) (e : exception) (env : environ) :
  settings_py.get_settings g p = (Raised e, p1) ->
  get_settings_cache p1 = None
  /\ os_environ p1 = os_environ p
  /\ settings_py.get_settings g (set_environ env p1)
     = match settings_py.Settings_fields g (pydantic_settings.parse_env_vars env) with
       | Returned s =>
           (Returned s,
            functools.cache_store s (snd (emit EvEnvSource (set_environ env p1))))
       | Raised e' => (Raised e', snd (emit EvEnvSource (set_environ env p1)))
       end.
Proof.
  intros Hraised.
  destruct (get_settings_cache p) as [s0|] eqn:Hcache.
  - rewrite (get_settings_hit g p s0 Hcache) in Hraised. discriminate.
  - rewrite (get_settings_miss g p Hcache) in Hraised.
    destruct (settings_py.Settings_fields _ _); [discriminate|].
    injection Hraised as _ <-. cbn [snd emit get_settings_cache os_environ].
    repeat split; [exact Hcache|].
    by rewrite get_settings_miss.
Qed.

Lemma failed_get_settings_is_retried_witness :
  let g := {| settings_py.mod_google_cloud_project := None;
              settings_py.mod_default_region := None |} in
  exists p1 s p2,
    settings_py.get_settings g (initial [("ALLOWED_ORIGINS", "*")] ∅)
      = (Raised (ValueError "allowed_origins"), p1)
    /\ settings_py.get_settings g (set_environ [] p1) = (Returned s, p2)
    /\ get_settings_cache p1 = None
    /\ get_settings_cache p2 = Some s.
Proof.
  intros g. eexists _, _, _.
  split; [vm_compute; reflexivity|].
  pose proof (failed_get_settings_is_retried g (initial [("ALLOWED_ORIGINS", "*")] ∅)
                _ (ValueError "allowed_origins") [] eq_refl) as (Hcache & _ & Hnext).
  split; [exact Hnext|]. split; [exact Hcache | reflexivity].
Defined.

(** C6 fails as stated: GOOGLE_CLOUD_PROJECT is unset, a variable with the
    same name in lower case is set, and the field is not None. *)
Lemma lower_case_variable_fills_field :
  exists p',
    load_settings (initial [("google_cloud_project", "my-proj")] ∅)
    = (Returned {| app_name := "Sample API"; app_version := "0.1.0"; allowed_origins := [];
                   google_cloud_project := Some "my-proj"; default_region := None |}, p')
    /\ os.environ_get [("google_cloud_project", "my-proj")] "GOOGLE_CLOUD_PROJECT" = None.
Proof. eexists. vm_compute. split; reflexivity. Qed.

(** C6, amended: when no variable of the environment has the name
    GOOGLE_CLOUD_PROJECT or DEFAULT_REGION in another letter case, the two
    fields are what os.getenv gives for these names: None for an unset
    variable, the value for a set one. *)
Theorem optional_fields_follow_environment (env : environ) (fs : gmap string file)
    (s : Settings) (p' : process) :
  NoDup (map fst env) ->
  only_spelling env "GOOGLE_CLOUD_PROJECT" = true ->
  only_spelling env "DEFAULT_REGION" = true ->
  load_settings (initial env fs) = (Returned s, p') ->
  google_cloud_project s = os.environ_get env "GOOGLE_CLOUD_PROJECT"
  /\ default_region s = os.environ_get env "DEFAULT_REGION".
Proof.
  intros Hnd Hgcp Hregion. rewrite load_settings_eq. cbv zeta.
  destruct (settings_py.Settings_fields _ _) as [s'|e] eqn:Hfields; [|discriminate].
  intros [= <- <-].
  apply Settings_fields_optional in Hfields as [-> ->].
  change (field_env_value env "google_cloud_project")
    with (field_env_value env "GOOGLE_CLOUD_PROJECT").
  change (field_env_value env "default_region")
    with (field_env_value env "DEFAULT_REGION").
  rewrite (field_env_value_environ_get env "GOOGLE_CLOUD_PROJECT" Hnd Hgcp).
  rewrite (field_env_value_environ_get env "DEFAULT_REGION" Hnd Hregion).
  split.
  - by destruct (os.environ_get env "GOOGLE_CLOUD_PROJECT").
  - by destruct (os.environ_get env "DEFAULT_REGION").
Qed.

Lemma optional_fields_follow_environment_witness :
  let env := [("GOOGLE_CLOUD_PROJECT", "my-proj"); ("DEFAULT_REGION", "us-central1")] in
  let s := {| app_name := "Sample API"; app_version := "0.1.0"; allowed_origins := [];
              google_cloud_project := Some "my-proj";
              default_region := Some "us-central1" |} in
  google_cloud_project s = os.environ_get env "GOOGLE_CLOUD_PROJECT"
  /\ default_region s = os.environ_get env "DEFAULT_REGION".
Proof.
  intros env s.
  refine (optional_fields_follow_environment env ∅ s _ _ _ _ _).
  - apply (bool_decide_unpack (NoDup (map fst env))). vm_compute. exact I.
  - vm_compute. reflexivity.
  - vm_compute. reflexivity.
  - vm_compute. reflexivity.
Defined.

(** *** Serving requests *)

Lemma stateless_ret {A} (a : A) : stateless (ret a).
Proof. by exists a. Qed.

Lemma handle_stateless `{Libraries} (rt : fastapi.Route) (req : Request) :
  stateless_routes [rt] -> stateless (fastapi.handle rt req).
Proof.
  unfold stateless_routes. rewrite Forall_singleton.
  unfold fastapi.handle. destruct (fastapi.route_endpoint rt) as [f|name]; intros Hrt.
  - destruct Hrt as [a Ha]. eexists. intros p. unfold bind. rewrite Ha. reflexivity.
  - apply stateless_ret.
Qed.

Lemma dispatch_stateless `{Libraries} (rts : list fastapi.Route)
    (partial : option fastapi.Route) (req : Request) (c : M Response) :
  stateless_routes rts ->
  fastapi.dispatch rts partial req = Some c -> stateless c.
Proof.
  unfold stateless_routes. intros Hrts. revert partial.
  induction Hrts as [|rt rts Hrt Hrts IH]; intros partial; simpl.
  - destruct partial; [|discriminate]. intros [= <-]. apply stateless_ret.
  - destruct (fastapi.matches rt req).
    + apply IH.
    + apply IH.
    + intros [= <-]. apply handle_stateless. unfold stateless_routes.
      by apply Forall_singleton.
Qed.

Lemma router_call_stateless `{Libraries} (r : fastapi.APIRouter) (req : Request) :
  stateless_routes (fastapi.routes r) -> stateless (fastapi.router_call r req).
Proof.
  intros Hrts. unfold fastapi.router_call.
  destruct (fastapi.dispatch (fastapi.routes r) None req) as [c|] eqn:Hdispatch.
  - by apply (dispatch_stateless (fastapi.routes r) None req).
  - match goal with |- context [if ?b then _ else _] => destruct b end;
      apply stateless_ret.
Qed.

Lemma cors_call_stateless `{Libraries} (mw : CORSMiddleware)
    (inner : Request -> M Response) (req : Request) :
  (forall req', stateless (inner req')) -> stateless (fastapi.cors_call mw inner req).
Proof.
  intros Hinner. unfold fastapi.cors_call.
  destruct (fastapi.header "origin" req); [|apply Hinner].
  match goal with |- context [if ?b then _ else _] => destruct b end;
    [apply stateless_ret | apply Hinner].
Qed.

(** A request served by an application with stateless path operations
    returns a response and leaves the process as it was. *)
Lemma call_stateless `{Libraries} (app : fastapi.FastAPI) (req : Request) :
  stateless_routes (fastapi.routes (fastapi.router app)) ->
  stateless (fastapi.call app req).
Proof.
  intros Hrts. unfold fastapi.call. revert req.
  induction (fastapi.user_middleware app) as [|mw mws IH]; intros req; simpl.
  - by apply router_call_stateless.
  - by apply cors_call_stateless.
Qed.

Lemma heartbeat_returns_alive (p : process) :
  heartbeat_py.heartbeat p = (Returned {| schemas.message := "alive" |}, p).
Proof. reflexivity. Qed.

(** *** Start-up *)

(** The application that main.py builds from the settings [s]. *)
Lemma import_main_returned `{Libraries} (p p' : process) (mm : main_py.module_globals) :
  main_py.import_module p = (Returned mm, p') ->
  exists text,
    files p !! "src/logging.ini" = Some (Readable text)
    /\ logging_ini_valid text = true
    /\ get_settings_cache p' = Some (main_py.settings mm)
    /\ fastapi.user_middleware (main_py.app mm) =
         [{| allow_origins := allowed_origins (main_py.settings mm);
             allow_credentials := false;
             allow_methods := ["GET"; "POST"; "OPTIONS"];
             allow_headers := ["Content-Type"; "Accept"; "Cache-Control"; "Origin"];
             expose_headers := ["Content-Disposition"] |}]
    /\ fastapi.routes (fastapi.router (main_py.app mm)) =
         (map (fun url => {| fastapi.route_path := url;
                             fastapi.route_methods := ["GET"; "HEAD"];
                             fastapi.route_endpoint := fastapi.Documentation url |})
              ["/openapi.json"; "/docs"; "/docs/oauth2-redirect"; "/redoc"]
          ++ [{| fastapi.route_path := "/api/heartbeat";
                 fastapi.route_methods := ["GET"];
                 fastapi.route_endpoint := fastapi.PathOperation heartbeat_py.heartbeat |}])%list.
Proof.
  unfold main_py.import_module. unfold bind at 1. rewrite import_settings_eq.
  unfold bind at 1. unfold logging_config.fileConfig, bind at 1 2, emit, get_process.
  cbn [fst snd files os_environ].
  destruct (files p !! "src/logging.ini") as [[|text]|] eqn:Hfile; [discriminate| |discriminate].
  destruct (logging_ini_valid text) eqn:Hvalid; [|discriminate].
  destruct (logging_handlers text (os_environ p) (files p)) as [fs'|]; [|discriminate].
  unfold logging_config.set_logging_configured. cbn [fst snd].
  unfold bind at 1.
  match goal with |- context [settings_py.get_settings ?g ?q] =>
    destruct (settings_py.get_settings g q) as [[s|e] q'] eqn:Hget
  end; [|discriminate].
  apply get_settings_fills_cache in Hget.
  unfold bind at 1. unfold fastapi.FastAPI_new.
  destruct (String.eqb (app_name s) ""); [discriminate|].
  destruct (String.eqb (app_version s) ""); [discriminate|].
  unfold bind, emit, ret. cbn.
  intros [= <- <-]. exists text. cbn. repeat split; try done.
Qed.

Lemma main_routes_stateless `{Libraries} (p p' : process) (mm : main_py.module_globals) :
  main_py.import_module p = (Returned mm, p') ->
  stateless_routes (fastapi.routes (fastapi.router (main_py.app mm))).
Proof.
  intros Hmain. apply import_main_returned in Hmain as (text & _ & _ & _ & _ & ->).
  unfold stateless_routes. apply Forall_app. split.
  - apply Forall_forall. intros rt Hin. apply list_elem_of_fmap in Hin as (url & -> & _).
    exact I.
  - apply Forall_singleton. simpl. eexists. apply heartbeat_returns_alive.
Qed.



Lemma main_app_answers_heartbeat `{Libraries} (p0 p1 : process) (mm : main_py.module_globals)
    (req : Request) (p : process) :
  main_py.import_module p0 = (Returned mm, p1) ->
  is_heartbeat_request req ->
  fastapi.call (main_py.app mm) req p
  = (Returned {| status_code := 200; content := JSONBody alive |}, p).
Proof.
  intros Hmain [Hmethod Hpath].
  apply import_main_returned in Hmain as (text & _ & _ & _ & Hmw & Hroutes).
  assert (fastapi.router_call (fastapi.router (main_py.app mm)) req p
          = (Returned {| status_code := 200; content := JSONBody alive |}, p)) as Hrouter.
  { unfold fastapi.router_call. rewrite Hroutes.
    destruct req as [m pa q h]. simpl in Hmethod, Hpath. subst m pa.
    reflexivity. }
  unfold fastapi.call. rewrite Hmw. cbn [fold_right]. unfold fastapi.cors_call.
  destruct (fastapi.header "origin" req) as [origin|]; [|exact Hrouter].
  rewrite Hmethod. exact Hrouter.
Qed.

(** C1: after start-up, every GET request to /api/heartbeat is answered
    with status 200 and the JSON object with the one member message =
    alive, whatever its headers and query string, whatever the state of the
    process, and however many such requests are served one after the other;
    the text of that body is [alive_text]. *)
Theorem heartbeat_requests_answered_alive `{Libraries} (p0 p1 : process)
    (mm : main_py.module_globals) (reqs : list Request) (p : process) :
  main_py.import_module p0 = (Returned mm, p1) ->
  Forall is_heartbeat_request reqs ->
  serve_all (main_py.app mm) reqs p
  = (Returned (replicate (List.length reqs)
                 {| status_code := 200; content := JSONBody alive |}), p)
  /\ json_encoder.dumps alive = alive_text.
Proof.
  intros Hmain Hreqs. split; [|reflexivity].
  induction Hreqs as [|req reqs Hreq Hreqs IH]; [reflexivity|].
  cbn [serve_all]. unfold bind at 1.
  rewrite (main_app_answers_heartbeat p0 p1 mm req p Hmain Hreq).
  unfold bind at 1. rewrite IH. reflexivity.
Qed.

Lemma heartbeat_requests_answered_alive_witness :
  exists mm p1,
    @main_py.import_module sample_libraries sample_process = (Returned mm, p1)
    /\ Forall is_heartbeat_request sample_requests
    /\ @serve_all sample_libraries (main_py.app mm) sample_requests p1
       = (Returned [ {| status_code := 200; content := JSONBody alive |};
                     {| status_code := 200; content := JSONBody alive |} ], p1)
    /\ json_encoder.dumps alive = alive_text.
Proof.
  eexists _, _. split; [vm_compute; reflexivity|].
  assert (Forall is_heartbeat_request sample_requests) as Hreqs
    by (repeat constructor).
  split; [exact Hreqs|].
  eapply (@heartbeat_requests_answered_alive sample_libraries sample_process);
    [vm_compute; reflexivity | exact Hreqs].
Defined.

(** C7: the application that start-up builds has one middleware, the CORS
    middleware, constructed with the allowed origins of the Settings value
    that get_settings() returned (and cached), credentials not allowed, the
    methods GET, POST, OPTIONS, the request headers Content-Type, Accept,
    Cache-Control, Origin, and the exposed header Content-Disposition. *)
Theorem cors_policy_of_application `{Libraries} (p0 p1 : process)
    (mm : main_py.module_globals) :
  main_py.import_module p0 = (Returned mm, p1) ->
  fastapi.user_middleware (main_py.app mm) =
    [{| allow_origins := allowed_origins (main_py.settings mm);
        allow_credentials := false;
        allow_methods := ["GET"; "POST"; "OPTIONS"];
        allow_headers := ["Content-Type"; "Accept"; "Cache-Control"; "Origin"];
        expose_headers := ["Content-Disposition"] |}]
  /\ get_settings_cache p1 = Some (main_py.settings mm).
Proof.
  intros Hmain.
  apply import_main_returned in Hmain as (text & _ & _ & Hcache & Hmw & _).
  by split.
Qed.

Lemma cors_policy_of_application_witness :
  exists mm p1,
    @main_py.import_module sample_libraries sample_process = (Returned mm, p1)
    /\ fastapi.user_middleware (main_py.app mm) =
         [{| allow_origins := allowed_origins (main_py.settings mm);
             allow_credentials := false;
             allow_methods := ["GET"; "POST"; "OPTIONS"];
             allow_headers := ["Content-Type"; "Accept"; "Cache-Control"; "Origin"];
             expose_headers := ["Content-Disposition"] |}]
    /\ get_settings_cache p1 = Some (main_py.settings mm).
Proof.
  eexists _, _. split; [vm_compute; reflexivity|].
  eapply (@cors_policy_of_application sample_libraries sample_process).
  vm_compute. reflexivity.
Defined.

Lemma step_keeps_settings `{Libraries} (app : fastapi.FastAPI)
    (g : settings_py.module_globals) (p p' : process) (s : Settings) :
  stateless_routes (fastapi.routes (fastapi.router app)) ->
  step app g p p' ->
  get_settings_cache p = Some s -> get_settings_cache p' = Some s.
Proof.
  intros Hrts Hstep Hcache.
  destruct Hstep as [p env | p req r p' Hcall | p r p' Hget].
  - exact Hcache.
  - destruct (call_stateless app req Hrts) as [a Ha].
    rewrite Ha in Hcall. by inversion Hcall; subst.
  - rewrite (get_settings_hit g p s Hcache) in Hget. by inversion Hget; subst.
Qed.

(** C8: in every state that the process reaches after start-up, by changes
    of the environment, served requests and calls of get_settings(), the
    cached Settings value is the one constructed at start-up, field for
    field; get_settings() returns it and changes nothing; and the heartbeat
    handler returns the message alive without reading or changing the state. *)
Theorem settings_and_heartbeat_invariant `{Libraries} (p0 p1 p : process)
    (mm : main_py.module_globals) (g : settings_py.module_globals) :
  main_py.import_module p0 = (Returned mm, p1) ->
  rtc (step (main_py.app mm) g) p1 p ->
  get_settings_cache p = Some (main_py.settings mm)
  /\ settings_py.get_settings g p = (Returned (main_py.settings mm), p)
  /\ heartbeat_py.heartbeat p = (Returned {| schemas.message := "alive" |}, p).
Proof.
  intros Hmain Hsteps.
  assert (get_settings_cache p = Some (main_py.settings mm)) as Hcache.
  { pose proof (main_routes_stateless p0 p1 mm Hmain) as Hrts.
    apply import_main_returned in Hmain as (text & _ & _ & Hcache & _).
    induction Hsteps as [p1|p1 p2 p3 Hstep Hsteps IH]; [exact Hcache|].
    apply IH. by apply (step_keeps_settings (main_py.app mm) g p1 p2). }
  split; [exact Hcache|]. split; [by apply get_settings_hit | reflexivity].
Qed.

Lemma settings_and_heartbeat_invariant_witness :
  let g := {| settings_py.mod_google_cloud_project := Some "my-proj";
              settings_py.mod_default_region := None |} in
  exists mm p1 p2,
    @main_py.import_module sample_libraries sample_process = (Returned mm, p1)
    /\ p2 = set_environ [("GOOGLE_CLOUD_PROJECT", "other"); ("APP_NAME", "x")] p1
    /\ get_settings_cache p2 = Some (main_py.settings mm)
    /\ settings_py.get_settings g p2 = (Returned (main_py.settings mm), p2)
    /\ heartbeat_py.heartbeat p2 = (Returned {| schemas.message := "alive" |}, p2).
Proof.
  intros g. eexists _, _, _. split; [vm_compute; reflexivity|]. split; [reflexivity|].
  eapply (@settings_and_heartbeat_invariant sample_libraries sample_process).
  - vm_compute. reflexivity.
  - eapply rtc_l; [|eapply rtc_l; [|eapply rtc_l; [|apply rtc_refl]]].
    + eapply (step_request _ _ _ (hd {| method := ""; path := ""; query_string := "";
                                         headers := [] |} sample_requests)).
      vm_compute. reflexivity.
    + eapply step_get_settings. vm_compute. reflexivity.
    + apply (step_environ _ _ _ [("GOOGLE_CLOUD_PROJECT", "other"); ("APP_NAME", "x")]).
Defined.

(** C9: the heartbeat handler returns the same value, with the message
    alive, in every state of every process, and leaves the state as it is;
    so does its route, whose response always has status 200 and the same
    body, whatever the request. *)
Theorem heartbeat_deterministic_and_stateless `{Libraries}
    (p1 p2 : process) (req1 req2 : Request) :
  stateless heartbeat_py.heartbeat
  /\ heartbeat_py.heartbeat p1 = (Returned {| schemas.message := "alive" |}, p1)
  /\ fst (heartbeat_py.heartbeat p1) = fst (heartbeat_py.heartbeat p2)
  /\ Forall (fun rt =>
       fastapi.handle rt req1 p1
         = (Returned {| status_code := 200; content := JSONBody alive |}, p1)
       /\ fst (fastapi.handle rt req1 p1) = fst (fastapi.handle rt req2 p2))
       (fastapi.routes heartbeat_py.router).
Proof.
  split.
  - exists {| schemas.message := "alive" |}. intros p. apply heartbeat_returns_alive.
  - split; [apply heartbeat_returns_alive|]. split.
    + by rewrite !heartbeat_returns_alive.
    + apply Forall_singleton. split; reflexivity.
Qed.

Lemma import_main_eq `{Libraries} (env : environ) (fs : gmap string file) :
  main_py.import_module (initial env fs) =
    let g := {| settings_py.mod_google_cloud_project := os.environ_get env "GOOGLE_CLOUD_PROJECT";
                settings_py.mod_default_region := os.environ_get env "DEFAULT_REGION" |} in
    let tr := [EvGetenv "GOOGLE_CLOUD_PROJECT"; EvGetenv "DEFAULT_REGION";
               EvFileConfig "src/logging.ini"] in
    let failed :=
      (Raised (LoggingConfigError "src/logging.ini"),
       {| os_environ := env; files := fs; get_settings_cache := None;
          logging_configured := false; trace := tr |}) in
    match fs !! "src/logging.ini" with
    | Some (Readable text) =>
        if logging_ini_valid text then
          match logging_handlers text env fs with
          | Some fs' =>
              match settings_py.Settings_fields g (pydantic_settings.parse_env_vars env) with
              | Returned s =>
                  let loaded :=
                    {| os_environ := env; files := fs'; get_settings_cache := Some s;
                       logging_configured := true;
                       trace := (tr ++ [EvEnvSource])%list |} in
                  if String.eqb (app_name s) "" then
                    (Raised (AssertionError
                               "A title must be provided for OpenAPI, e.g.: 'My API'"),
                     loaded)
                  else if String.eqb (app_version s) "" then
                    (Raised (AssertionError
                               "A version must be provided for OpenAPI, e.g.: '2.1.0'"),
                     loaded)
                  else
                    (Returned
                       {| main_py.settings := s;
                          main_py.app :=
                            fastapi.include_router
                              (fastapi.add_middleware
                                 {| fastapi.title := app_name s;
                                    fastapi.description := "API for the sample application.";
                                    fastapi.version := app_version s;
                                    fastapi.user_middleware := [];
                                    fastapi.router := {| fastapi.routes :=
                                      map (fun url =>
                                             {| fastapi.route_path := url;
                                                fastapi.route_methods := ["GET"; "HEAD"];
                                                fastapi.route_endpoint :=
                                                  fastapi.Documentation url |})
                                        ["/openapi.json"; "/docs"; "/docs/oauth2-redirect";
                                         "/redoc"] |} |}
                                 {| allow_origins := allowed_origins s;
                                    allow_credentials := false;
                                    allow_methods := ["GET"; "POST"; "OPTIONS"];
                                    allow_headers :=
                                      ["Content-Type"; "Accept"; "Cache-Control"; "Origin"];
                                    expose_headers := ["Content-Disposition"] |})
                              heartbeat_py.router "/api/heartbeat" |},
                     {| os_environ := env; files := fs'; get_settings_cache := Some s;
                        logging_configured := true;
                        trace := (tr ++ [EvEnvSource; EvAppConstructed])%list |})
              | Raised e =>
                  (Raised e,
                   {| os_environ := env; files := fs'; get_settings_cache := None;
                      logging_configured := true; trace := (tr ++ [EvEnvSource])%list |})
              end
          | None => failed
          end
        else failed
    | Some Unreadable => failed
    | None => failed
    end.
Proof.
  cbv zeta. unfold main_py.import_module. unfold bind at 1. rewrite import_settings_eq.
  unfold bind at 1. unfold logging_config.fileConfig, bind at 1 2, emit, get_process.
  cbn [fst snd files initial os_environ trace get_settings_cache logging_configured app].
  destruct (fs !! "src/logging.ini") as [[|text]|]; [reflexivity| |reflexivity].
  destruct (logging_ini_valid text); [|reflexivity].
  destruct (logging_handlers text env fs) as [fs'|]; [|reflexivity].
  unfold logging_config.set_logging_configured.
  cbn [fst snd files initial os_environ trace get_settings_cache logging_configured app].
  unfold bind at 1. rewrite get_settings_miss by reflexivity.
  cbn [fst snd files initial os_environ trace get_settings_cache logging_configured app emit].
  destruct (settings_py.Settings_fields _ _) as [s|e]; [|reflexivity].
  unfold bind at 1. unfold fastapi.FastAPI_new.
  destruct (String.eqb (app_name s) ""); [reflexivity|].
  destruct (String.eqb (app_version s) ""); reflexivity.
Qed.

Lemma not_before_fileConfig (e : event) (post : list event) :
  e ∉ [EvGetenv "GOOGLE_CLOUD_PROJECT"; EvGetenv "DEFAULT_REGION"] ->
  not_before (EvFileConfig "src/logging.ini") e
    ([EvGetenv "GOOGLE_CLOUD_PROJECT"; EvGetenv "DEFAULT_REGION";
      EvFileConfig "src/logging.ini"] ++ post)%list.
Proof.
  intros Hnotin.
  by exists [EvGetenv "GOOGLE_CLOUD_PROJECT"; EvGetenv "DEFAULT_REGION"], post.
Qed.

(** C10: start-up reads src/logging.ini before it loads the settings and
    before it constructs the application.  When the file is absent or cannot
    be read, start-up raises, no settings are loaded and no application is
    constructed.  When start-up returns, the file was there, readable and
    accepted, and the events of start-up are, in order: the two os.getenv
    calls of src/settings.py, fileConfig, the settings read the environment,
    the application is constructed. *)
Theorem startup_configures_logging_first `{Libraries} (env : environ) (fs : gmap string file) :
  let r := main_py.import_module (initial env fs) in
  let tr := trace (snd r) in
  not_before (EvFileConfig "src/logging.ini") EvEnvSource tr
  /\ not_before (EvFileConfig "src/logging.ini") EvAppConstructed tr
  /\ ((fs !! "src/logging.ini" = None \/ fs !! "src/logging.ini" = Some Unreadable) ->
      fst r = Raised (LoggingConfigError "src/logging.ini")
      /\ (EvEnvSource ∉ tr) /\ (EvAppConstructed ∉ tr)
      /\ get_settings_cache (snd r) = None)
  /\ (forall mm, fst r = Returned mm ->
      (exists text, fs !! "src/logging.ini" = Some (Readable text)
                    /\ logging_ini_valid text = true)
      /\ tr = [EvGetenv "GOOGLE_CLOUD_PROJECT"; EvGetenv "DEFAULT_REGION";
               EvFileConfig "src/logging.ini"; EvEnvSource; EvAppConstructed]).
Proof.
  cbv zeta. rewrite import_main_eq. cbv zeta.
  assert (forall post, not_before (EvFileConfig "src/logging.ini") EvEnvSource
            ([EvGetenv "GOOGLE_CLOUD_PROJECT"; EvGetenv "DEFAULT_REGION";
              EvFileConfig "src/logging.ini"] ++ post)%list) as Hsettings
    by (intros post; apply not_before_fileConfig; event_not_in).
  assert (forall post, not_before (EvFileConfig "src/logging.ini") EvAppConstructed
            ([EvGetenv "GOOGLE_CLOUD_PROJECT"; EvGetenv "DEFAULT_REGION";
              EvFileConfig "src/logging.ini"] ++ post)%list) as Happ
    by (intros post; apply not_before_fileConfig; event_not_in).
  destruct (fs !! "src/logging.ini") as [[|text]|] eqn:Hfile.
  - (* the file cannot be read *)
    cbn [fst snd trace get_settings_cache].
    split; [apply (Hsettings [])|]. split; [apply (Happ [])|]. split.
    + intros _. repeat split; [event_not_in | event_not_in].
    + intros mm Hret. discriminate Hret.
  - assert (forall q : process,
              trace q = [EvGetenv "GOOGLE_CLOUD_PROJECT"; EvGetenv "DEFAULT_REGION";
                         EvFileConfig "src/logging.ini"] \/
              trace q = [EvGetenv "GOOGLE_CLOUD_PROJECT"; EvGetenv "DEFAULT_REGION";
                         EvFileConfig "src/logging.ini"; EvEnvSource] ->
              forall e : exception,
                not_before (EvFileConfig "src/logging.ini") EvEnvSource (trace q)
                /\ not_before (EvFileConfig "src/logging.ini") EvAppConstructed (trace q)
                /\ ((Some (Readable text) = None \/ Some (Readable text) = Some Unreadable) ->
                    @Raised main_py.module_globals e
                      = Raised (LoggingConfigError "src/logging.ini")
                    /\ (EvEnvSource ∉ trace q) /\ (EvAppConstructed ∉ trace q)
                    /\ get_settings_cache q = None)
                /\ (forall mm, @Raised main_py.module_globals e = Returned mm ->
                    (exists text0, Some (Readable text) = Some (Readable text0)
                                   /\ logging_ini_valid text0 = true)
                    /\ trace q = [EvGetenv "GOOGLE_CLOUD_PROJECT"; EvGetenv "DEFAULT_REGION";
                                  EvFileConfig "src/logging.ini"; EvEnvSource;
                                  EvAppConstructed])) as Hraised.
    { intros q Htrace e. split; [|split; [|split]].
      - destruct Htrace as [-> | ->]; [apply (Hsettings []) | apply (Hsettings [EvEnvSource])].
      - destruct Htrace as [-> | ->]; [apply (Happ []) | apply (Happ [EvEnvSource])].
      - intros [Hnone|Hunreadable]; discriminate.
      - intros mm Hret. discriminate Hret. }
    destruct (logging_ini_valid text) eqn:Hvalid;
      [destruct (logging_handlers text env fs) as [fs'|];
       [destruct (settings_py.Settings_fields _ _) as [s|e];
        [cbv zeta; destruct (String.eqb (app_name s) "");
         [|destruct (String.eqb (app_version s) "")]|]|]|];
      cbn [fst snd];
      try (apply Hraised; cbn [trace]; (by left) || (by right)).
    split; [apply (Hsettings [EvEnvSource; EvAppConstructed])|].
    split; [apply (Happ [EvEnvSource; EvAppConstructed])|]. split.
    + intros [Hnone|Hunreadable]; discriminate.
    + intros mm _. split; [by exists text | reflexivity].
  - (* the file is absent *)
    cbn [fst snd trace get_settings_cache].
    split; [apply (Hsettings [])|]. split; [apply (Happ [])|]. split.
    + intros _. repeat split; [event_not_in | event_not_in].
    + intros mm Hret. discriminate Hret.
Qed.

(** * Further properties *)

(** ** Start-up and the settings *)



(** X5: when the logging configuration is accepted but ALLOWED_ORIGINS
    holds a text that opens neither as a JSON array nor as null (an empty
    text, a bare URL, a star, origins separated by commas), start-up raises
    the ValueError of the settings after logging has been configured: no
    application is constructed and no Settings value is cached. *)
Lemma startup_aborts_on_bad_allowed_origins `{Libraries} (env : environ)
    (fs fs' : gmap string file) (text origins_text : string) :
  fs !! "src/logging.ini" = Some (Readable text) ->
  logging_ini_valid text = true ->
  logging_handlers text env fs = Some fs' ->
  field_env_value env "allowed_origins" = Some origins_text ->
  opens_with "[" origins_text = false ->
  opens_with "n" origins_text = false ->
  exists p',
    main_py.import_module (initial env fs) = (Raised (ValueError "allowed_origins"), p')
    /\ logging_configured p' = true
    /\ get_settings_cache p' = None
    /\ trace p' = [EvGetenv "GOOGLE_CLOUD_PROJECT"; EvGetenv "DEFAULT_REGION";
                   EvFileConfig "src/logging.ini"; EvEnvSource].
Proof.
  intros Hfile Hvalid Hhandlers Hvar Harray Hnull. rewrite import_main_eq. cbv zeta.
  rewrite Hfile, Hvalid, Hhandlers. unfold settings_py.Settings_fields.
  rewrite (str_list_field_refused env origins_text Hvar Harray Hnull).
  by eexists.
Qed.

Lemma startup_aborts_on_bad_allowed_origins_witness :
  let fs : gmap string file := {[ "src/logging.ini" := Readable "[loggers]" ]} in
  exists p',
    @main_py.import_module sample_libraries (initial [("ALLOWED_ORIGINS", "*")] fs)
    = (Raised (ValueError "allowed_origins"), p')
    /\ logging_configured p' = true
    /\ get_settings_cache p' = None
    /\ trace p' = [EvGetenv "GOOGLE_CLOUD_PROJECT"; EvGetenv "DEFAULT_REGION";
                   EvFileConfig "src/logging.ini"; EvEnvSource].
Proof.
  intros fs.
  apply (@startup_aborts_on_bad_allowed_origins sample_libraries
           [("ALLOWED_ORIGINS", "*")] fs fs "[loggers]" "*"); vm_compute; reflexivity.
Defined.

(** X7: the title and the version of the application are the application
    name and version of the Settings: the value of APP_NAME and of
    APP_VERSION (in any letter case, the last one when there are several)
    when set, the defaults of the class otherwise; the description is fixed. *)
Lemma application_metadata `{Libraries} (env : environ) (fs : gmap string file)
    (mm : main_py.module_globals) (p' : process) :
  main_py.import_module (initial env fs) = (Returned mm, p') ->
  fastapi.title (main_py.app mm) = app_name (main_py.settings mm)
  /\ fastapi.version (main_py.app mm) = app_version (main_py.settings mm)
  /\ fastapi.title (main_py.app mm) = default "Sample API" (field_env_value env "app_name")
  /\ fastapi.version (main_py.app mm) = default "0.1.0" (field_env_value env "app_version")
  /\ fastapi.description (main_py.app mm) = "API for the sample application.".
Proof.
  rewrite import_main_eq. cbv zeta.
  destruct (fs !! "src/logging.ini") as [[|text]|]; [discriminate| |discriminate].
  destruct (logging_ini_valid text); [|discriminate].
  destruct (logging_handlers text env fs) as [fs'|]; [|discriminate].
  destruct (settings_py.Settings_fields _ _) as [s|e] eqn:Hfields; [|discriminate].
  cbv zeta. destruct (String.eqb (app_name s) ""); [discriminate|].
  destruct (String.eqb (app_version s) ""); [discriminate|].
  intros [= <- <-]. cbn.
  unfold settings_py.Settings_fields in Hfields.
  destruct (pydantic_settings.str_list_field _ _ _); [|discriminate].
  injection Hfields as <-. cbn [app_name app_version].
  rewrite !str_field_eq. by repeat split.
Qed.

Lemma application_metadata_witness :
  let env := [("APP_NAME", "first"); ("app_name", "Heartbeat API")] in
  exists mm p',
    @main_py.import_module sample_libraries
      (initial env {[ "src/logging.ini" := Readable "[loggers]" ]}) = (Returned mm, p')
    /\ fastapi.title (main_py.app mm) = app_name (main_py.settings mm)
    /\ fastapi.version (main_py.app mm) = app_version (main_py.settings mm)
    /\ fastapi.title (main_py.app mm) = default "Sample API" (field_env_value env "app_name")
    /\ fastapi.version (main_py.app mm) = default "0.1.0" (field_env_value env "app_version")
    /\ fastapi.description (main_py.app mm) = "API for the sample application.".
Proof.
  intros env. eexists _, _. split; [vm_compute; reflexivity|].
  eapply (@application_metadata sample_libraries env
            {[ "src/logging.ini" := Readable "[loggers]" ]}).
  vm_compute. reflexivity.
Defined.

(** X8: when the logging configuration is accepted, the application name
    and version are not empty, and ALLOWED_ORIGINS is unset or holds the
    JSON text of a list of strings, as json.dumps writes it (every character
    of every item, quotes, backslashes and control characters included),
    start-up returns, the allowed origins of the Settings are that list
    (the empty list when unset), and so are the allowed origins of the CORS
    middleware. *)
Lemma allowed_origins_round_trip `{Libraries} (env : environ) (fs fs' : gmap string file)
    (text : string) (origins : list string) :
  fs !! "src/logging.ini" = Some (Readable text) ->
  logging_ini_valid text = true ->
  logging_handlers text env fs = Some fs' ->
  default "Sample API" (field_env_value env "app_name") <> "" ->
  default "0.1.0" (field_env_value env "app_version") <> "" ->
  allowed_origins_given env origins ->
  exists mm p',
    main_py.import_module (initial env fs) = (Returned mm, p')
    /\ allowed_origins (main_py.settings mm) = origins
    /\ map allow_origins (fastapi.user_middleware (main_py.app mm)) = [origins].
Proof.
  intros Hfile Hvalid Hhandlers Hname Hversion Hgiven. rewrite import_main_eq. cbv zeta.
  rewrite Hfile, Hvalid, Hhandlers, (Settings_fields_given _ env origins Hgiven).
  cbn [app_name app_version].
  apply String.eqb_neq in Hname, Hversion. rewrite Hname, Hversion.
  by eexists _, _.
Qed.

Lemma allowed_origins_round_trip_witness :
  let origins := ["https://example.org"; "http://localhost:3000"] in
  let env := [("HOME", "/root"); ("ALLOWED_ORIGINS", dumps_str_list origins)] in
  let fs : gmap string file := {[ "src/logging.ini" := Readable "[loggers]" ]} in
  exists mm p',
    @main_py.import_module sample_libraries (initial env fs) = (Returned mm, p')
    /\ allowed_origins (main_py.settings mm) = origins
    /\ map allow_origins (fastapi.user_middleware (main_py.app mm)) = [origins].
Proof.
  intros origins env fs.
  apply (@allowed_origins_round_trip sample_libraries env fs fs "[loggers]" origins);
    try (vm_compute; reflexivity); vm_compute; discriminate.
Defined.

(** X11: a value of ALLOWED_ORIGINS that opens neither as a JSON array nor
    as null (an empty text, a bare URL, a star, origins separated by commas)
    makes the first get_settings() raise, and nothing is cached. *)
Lemma allowed_origins_must_open_with_bracket (env : environ) (fs : gmap string file)
    (text : string) :
  field_env_value env "allowed_origins" = Some text ->
  opens_with "[" text = false ->
  opens_with "n" text = false ->
  exists p',
    load_settings (initial env fs) = (Raised (ValueError "allowed_origins"), p')
    /\ get_settings_cache p' = None.
Proof.
  intros Hvar Harray Hnull. rewrite load_settings_eq. cbv zeta.
  unfold settings_py.Settings_fields.
  rewrite (str_list_field_refused env text Hvar Harray Hnull). by eexists.
Qed.

Lemma allowed_origins_must_open_with_bracket_witness :
  exists p',
    load_settings
      (initial [("ALLOWED_ORIGINS", "https://example.org,http://localhost:3000")] ∅)
    = (Raised (ValueError "allowed_origins"), p')
    /\ get_settings_cache p' = None.
Proof.
  apply (allowed_origins_must_open_with_bracket
           [("ALLOWED_ORIGINS", "https://example.org,http://localhost:3000")] ∅
           "https://example.org,http://localhost:3000");
    vm_compute; reflexivity.
Defined.

(** ** Requests the heartbeat route does not answer *)





(** The CORS middleware of the application hands every request that is
    not a preflight to the router, and returns its response. *)
Lemma main_call_not_preflight `{Libraries} (p0 p1 : process)
    (mm : main_py.module_globals) (req : Request) :
  main_py.import_module p0 = (Returned mm, p1) ->
  is_preflight req = false ->
  fastapi.call (main_py.app mm) req
  = fastapi.router_call (fastapi.router (main_py.app mm)) req.
Proof.
  intros Hmain Hpre.
  apply import_main_returned in Hmain as (text & _ & _ & _ & Hmw & _).
  unfold fastapi.call. rewrite Hmw. cbn [fold_right]. unfold fastapi.cors_call.
  unfold is_preflight in Hpre.
  destruct (fastapi.header "origin" req); [|reflexivity]. by rewrite Hpre.
Qed.

(** X9: after start-up, a request to /api/heartbeat with any method other
    than GET (POST, HEAD, PUT, a plain OPTIONS, ...) that is not a CORS
    preflight is answered 405 Method Not Allowed; the handler is not run and
    the process is left as it was.  POST is allowed by the CORS policy but
    served by no route. *)
Lemma other_methods_not_allowed `{Libraries} (p0 p1 : process)
    (mm : main_py.module_globals) (req : Request) (p : process) :
  main_py.import_module p0 = (Returned mm, p1) ->
  path req = "/api/heartbeat" ->
  method req <> "GET" ->
  is_preflight req = false ->
  fastapi.call (main_py.app mm) req p
  = (Returned {| status_code := 405;
                 content := JSONBody (json_encoder.JObject
                                        [("detail", "Method Not Allowed")]) |}, p).
Proof.
  intros Hmain Hpath Hmethod Hpre.
  rewrite (main_call_not_preflight p0 p1 mm req Hmain Hpre).
  apply import_main_returned in Hmain as (text & _ & _ & _ & _ & Hroutes).
  unfold fastapi.router_call. rewrite Hroutes.
  apply String.eqb_neq in Hmethod.
  destruct req as [m pa q h]. simpl in Hpath, Hmethod. subst pa.
  cbn [map app fastapi.dispatch].
  unfold fastapi.matches.
  cbn [fastapi.route_path fastapi.route_methods path method existsb].
  rewrite Hmethod. reflexivity.
Qed.

Lemma other_methods_not_allowed_witness :
  let req := {| method := "POST"; path := "/api/heartbeat"; query_string := "";
                headers := [("origin", "https://example.org");
                            ("content-type", "application/json")] |} in
  exists mm p1,
    @main_py.import_module sample_libraries sample_process = (Returned mm, p1)
    /\ @fastapi.call sample_libraries (main_py.app mm) req p1
       = (Returned {| status_code := 405;
                      content := JSONBody (json_encoder.JObject
                                             [("detail", "Method Not Allowed")]) |}, p1).
Proof.
  intros req. eexists _, _. split; [vm_compute; reflexivity|].
  eapply (@other_methods_not_allowed sample_libraries sample_process).
  - vm_compute. reflexivity.
  - reflexivity.
  - discriminate.
  - reflexivity.
Defined.


